(** * schema/schema.py: JSON schema generation for samconfig files

    A shallow embedding of [schema/schema.py] and the properties its
    specification states about it.

    Conventions of the embedding.
    - A Python [str] is a [string]; a character is a code point in 0..255.
      The character tables ([chr_isspace], [chr_lower], [chr_cased],
      [chr_title]) are Python's tables for that range; [title] is
      Python's [str.title] on every string without U+00B5 and U+00FF,
      whose title case has no code point in the range.
    - A Python object that the code stores or emits is a [value].
    - A Python [dict] with [str] keys is an association list kept with
      unique keys in insertion order ([dict_set] overwrites in place).
    - Code that can raise returns [result].
    - [SamConfig.to_key], [_SAM_CLI_COMMAND_PACKAGES] and the modules that
      [importlib.import_module] resolves live outside this file of the
      repository; the pipeline takes them as parameters. *)

From Stdlib Require Import String Ascii List ZArith NArith Bool Lia.
From Stdlib Require Import Permutation.
From Stdlib Require Import Floats.SpecFloat.
Import ListNotations.
Open Scope string_scope.
Set Warnings "-register-all".

(* ================================================================= *)
(** ** Python strings *)

Module PyStr.

Definition code (c : ascii) : N := N_of_ascii c.

Definition between (lo hi n : N) : bool := ((lo <=? n) && (n <=? hi))%N.

(** [str.isspace] on one character. *)
Definition chr_isspace (c : ascii) : bool :=
  let n := code c in
  between 9 13 n || between 28 32 n || (n =? 133)%N || (n =? 160)%N.

(** Characters that [str.lower] changes. *)
Definition chr_isupper (c : ascii) : bool :=
  let n := code c in
  between 65 90 n || (between 192 222 n && negb (n =? 215)%N).

Definition chr_lower (c : ascii) : ascii :=
  if chr_isupper c then ascii_of_N (code c + 32) else c.

(** Lower-case letters whose title case is the letter 32 code points
    below. *)
Definition chr_islower_inrange (c : ascii) : bool :=
  let n := code c in
  between 97 122 n || (between 224 254 n && negb (n =? 247)%N).

(** The title case of one character. That of U+00DF is the two
    characters "Ss". Those of U+00B5 and U+00FF are U+039C and U+0178,
    beyond code point 255: these two characters are left as they are,
    and [has_title] says where the table is Python's. *)
Definition chr_title (c : ascii) : string :=
  if (code c =? 223)%N then "Ss"
  else String (if chr_islower_inrange c then ascii_of_N (code c - 32) else c)
              EmptyString.

Definition has_title (c : ascii) : bool :=
  negb (code c =? 181)%N && negb (code c =? 255)%N.

(** Cased characters: they make the following letter lower case in
    [str.title]. *)
Definition chr_cased (c : ascii) : bool :=
  let n := code c in
  chr_isupper c || chr_islower_inrange c
  || (n =? 170)%N || (n =? 181)%N || (n =? 186)%N || (n =? 223)%N || (n =? 255)%N.

Definition newline : ascii := "010"%char.
Definition backspace : ascii := "008"%char.

Fixpoint str_map (f : ascii -> ascii) (s : string) : string :=
  match s with
  | EmptyString => EmptyString
  | String c s' => String (f c) (str_map f s')
  end.

(** [s.lower()] *)
Definition lower (s : string) : string := str_map chr_lower s.

(** [s.title()] *)
Fixpoint title_from (prev_cased : bool) (s : string) : string :=
  match s with
  | EmptyString => EmptyString
  | String c s' =>
      (if prev_cased then String (chr_lower c) EmptyString else chr_title c)
      ++ title_from (chr_cased c) s'
  end.

Definition title (s : string) : string := title_from false s.

(** [c in chars] for a character and a string. *)
Fixpoint mem (c : ascii) (chars : string) : bool :=
  match chars with
  | EmptyString => false
  | String d chars' => Ascii.eqb c d || mem c chars'
  end.

(** [s.replace(old, new)] for a one-character [old]. *)
Fixpoint replace (old : ascii) (new : string) (s : string) : string :=
  match s with
  | EmptyString => EmptyString
  | String c s' =>
      if Ascii.eqb c old then new ++ replace old new s'
      else String c (replace old new s')
  end.

Fixpoint lstrip_by (p : ascii -> bool) (s : string) : string :=
  match s with
  | EmptyString => EmptyString
  | String c s' => if p c then lstrip_by p s' else s
  end.

Fixpoint rstrip_by (p : ascii -> bool) (s : string) : string :=
  match s with
  | EmptyString => EmptyString
  | String c s' =>
      match rstrip_by p s' with
      | EmptyString => if p c then EmptyString else String c EmptyString
      | r => String c r
      end
  end.

(** The characters [s.strip(chars)] removes; [chars = None] means
    whitespace. *)
Definition strip_set (chars : option string) : ascii -> bool :=
  match chars with
  | None => chr_isspace
  | Some cs => fun c => mem c cs
  end.

(** [s.strip(chars)] *)
Definition strip (chars : option string) (s : string) : string :=
  rstrip_by (strip_set chars) (lstrip_by (strip_set chars) s).

(** [s.split(sep)] for a one-character [sep]: never an empty list. *)
Fixpoint split (sep : ascii) (s : string) : list string :=
  match s with
  | EmptyString => [EmptyString]
  | String c s' =>
      if Ascii.eqb c sep then EmptyString :: split sep s'
      else match split sep s' with
           | [] => [String c EmptyString]
           | w :: ws => String c w :: ws
           end
  end.

(** [sep.join(parts)] *)
Fixpoint join (sep : string) (parts : list string) : string :=
  match parts with
  | [] => EmptyString
  | [p] => p
  | p :: ps => p ++ sep ++ join sep ps
  end.

(** [parts[0]] and [parts[-1]] of a list known to be non-empty, as
    [split] returns it. *)
Definition first (parts : list string) : string := hd EmptyString parts.
Definition last (parts : list string) : string := List.last parts EmptyString.

(** [x in xs] for a string and a list of strings. *)
Fixpoint in_list (x : string) (xs : list string) : bool :=
  match xs with
  | [] => false
  | y :: ys => String.eqb x y || in_list x ys
  end.

(** Truth value of a string, and [a or b] on strings. *)
Definition truthy (s : string) : bool :=
  match s with EmptyString => false | _ => true end.

Definition or_else (a b : string) : string := if truthy a then a else b.

(** Observations used to state what stripping does. *)
Fixpoint all_chars (p : ascii -> bool) (s : string) : bool :=
  match s with
  | EmptyString => true
  | String c s' => p c && all_chars p s'
  end.

Definition head_char (s : string) : option ascii :=
  match s with EmptyString => None | String c _ => Some c end.

Fixpoint last_char (s : string) : option ascii :=
  match s with
  | EmptyString => None
  | String c EmptyString => Some c
  | String _ s' => last_char s'
  end.

Definition holds_at (p : ascii -> bool) (o : option ascii) : bool :=
  match o with None => false | Some c => p c end.

(** [r] is [s] without its longest prefix and longest suffix of
    characters in [p]. *)
Definition stripped (p : ascii -> bool) (s r : string) : Prop :=
  exists pre suf,
    s = pre ++ r ++ suf /\
    all_chars p pre = true /\ all_chars p suf = true /\
    holds_at p (head_char r) = false /\ holds_at p (last_char r) = false.

Definition differs (old c : ascii) : bool := negb (Ascii.eqb c old).

(** [r] is [s] with every occurrence of [c] deleted. *)
Inductive deleted (c : ascii) : string -> string -> Prop :=
| deleted_nil : deleted c EmptyString EmptyString
| deleted_drop s r : deleted c s r -> deleted c (String c s) r
| deleted_keep d s r : d <> c -> deleted c s r -> deleted c (String d s) (String d r).

End PyStr.


(* ================================================================= *)
(** ** Python values and dictionaries *)

Module PyVal.

(** The objects the schema generator stores and emits. A [float] is an
    IEEE 754 binary64 number. *)
Inductive value : Type :=
| VNone
| VBool (b : bool)
| VInt (z : Z)
| VFloat (f : spec_float)
| VStr (s : string)
| VTuple (items : list value)
| VList (items : list value)
| VDict (entries : list (string * value)).

Definition dict : Type := list (string * value).

Definition is_empty {A : Type} (l : list A) : bool :=
  match l with [] => true | _ => false end.

(** [bool(v)] *)
Definition truthy (v : value) : bool :=
  match v with
  | VNone => false
  | VBool b => b
  | VInt z => negb (z =? 0)%Z
  | VFloat f => match f with S754_zero _ => false | _ => true end
  | VStr s => PyStr.truthy s
  | VTuple items | VList items => negb (is_empty items)
  | VDict entries => negb (is_empty entries)
  end.

(** [d.get(k)] *)
Fixpoint dict_get (k : string) (d : dict) : option value :=
  match d with
  | [] => None
  | (k', v) :: d' => if String.eqb k k' then Some v else dict_get k d'
  end.

(** [d[k] = v]: an existing key keeps its place, a new key goes last. *)
Fixpoint dict_set (k : string) (v : value) (d : dict) : dict :=
  match d with
  | [] => [(k, v)]
  | (k', v') :: d' =>
      if String.eqb k k' then (k, v) :: d' else (k', v') :: dict_set k v d'
  end.

(** [d.update(other)] *)
Definition dict_update (d other : dict) : dict :=
  fold_left (fun acc kv => dict_set (fst kv) (snd kv) acc) other d.

(** [d[k].m(...)] where the method [m] mutates the dictionary stored
    under [k] as [f] describes; other entries are untouched. *)
Fixpoint dict_alter (k : string) (f : dict -> dict) (d : dict) : dict :=
  match d with
  | [] => []
  | (k', v) :: d' =>
      if String.eqb k k'
      then (k', match v with VDict e => VDict (f e) | _ => v end) :: d'
      else (k', v) :: dict_alter k f d'
  end.

Definition dict_keys (d : dict) : list string := map fst d.

(** [v[k1][k2]...[kn]] when every step is a dictionary holding the key. *)
Fixpoint at_path (path : list string) (v : value) : option value :=
  match path with
  | [] => Some v
  | k :: path' =>
      match v with
      | VDict d =>
          match dict_get k d with
          | Some v' => at_path path' v'
          | None => None
          end
      | _ => None
      end
  end.

(** [for x in xs: d[key(x)] = val(x)] *)
Definition put {A : Type} (key : A -> string) (val : A -> value)
  (xs : list A) (d : dict) : dict :=
  fold_left (fun acc x => dict_set (key x) (val x) acc) xs d.

(** [list(v) if isinstance(v, tuple) else v] *)
Definition tuple_as_list (v : value) : value :=
  match v with
  | VTuple elems => VList elems
  | _ => v
  end.

(** The float literal [0.1]: 0x1.999999999999ap-4. *)
Definition float_0_1 : spec_float := S754_finite false 7205759403792794 (-56).

End PyVal.

(* ================================================================= *)
(** ** Exceptions *)

(** What the generator lets through. [RaisedByImport name] is the
    exception that [importlib.import_module(name)] raised, whatever its
    class: [ModuleNotFoundError] for a package that is not installed,
    [ValueError] for an empty name, [TypeError] for a relative name, or
    what the module's own code raised while it was imported. *)
Inductive exn : Type :=
| RaisedByImport (package_name : string)
| AttributeError (attribute : string).

Definition result (A : Type) : Type := (exn + A)%type.

Definition Ok {A : Type} (a : A) : result A := inr a.
Definition Raise {A : Type} (e : exn) : result A := inl e.

Definition bind {A B : Type} (m : result A) (k : A -> result B) : result B :=
  match m with
  | inl e => inl e
  | inr a => k a
  end.

Declare Scope result_scope.
Delimit Scope result_scope with result.
Notation "x <- m ;; k" := (bind m (fun x => k))
  (at level 61, m at next level, right associativity) : result_scope.

(* ================================================================= *)
(** ** The command registry, as the click framework exposes it *)

Module Click.
Import PyVal.

(** [param.type]: its [name], and its [choices] when the type is an
    instance of [click.Choice]. *)
Record ParamType : Type := {
  type_name : string;
  type_choices : option (list string)
}.

(** An entry of [cli.params]. [is_option] says whether it is an instance
    of [click.core.Option]. *)
Record Param : Type := {
  is_option : bool;
  name : option string;
  type : ParamType;
  help : option string;
  default : value
}.

(** A command object; [cmd_commands] is [Some] for a [click.core.Group]
    and lists the entries of its [commands] dictionary in order. *)
Inductive Command : Type :=
| MkCommand (cmd_name : option string)
            (cmd_help cmd_short_help : option string)
            (cmd_params : list Param)
            (cmd_commands : option (list (string * Command))).

Definition cmd_name (c : Command) : option string :=
  let 'MkCommand n _ _ _ _ := c in n.
Definition cmd_help (c : Command) : option string :=
  let 'MkCommand _ h _ _ _ := c in h.
Definition cmd_short_help (c : Command) : option string :=
  let 'MkCommand _ _ h _ _ := c in h.
Definition cmd_params (c : Command) : list Param :=
  let 'MkCommand _ _ _ ps _ := c in ps.
Definition cmd_commands (c : Command) : option (list (string * Command)) :=
  let 'MkCommand _ _ _ _ cs := c in cs.

(** [isinstance(c, click.core.Group)] *)
Definition is_group (c : Command) : bool :=
  match cmd_commands c with Some _ => true | None => false end.

(** [d.values()] *)
Definition values {A : Type} (d : list (string * A)) : list A := map snd d.

(** An imported module: its [__name__] and its [cli] attribute when it
    defines one. *)
Record PyModule : Type := {
  mod_name : string;
  mod_cli : option Command
}.

(** [x or y] where [x] is [None] or a string. *)
Definition opt_or (x : option string) (y : string) : string :=
  match x with
  | Some s => PyStr.or_else s y
  | None => y
  end.

(** [bool(x)] where [x] is [None] or a string. *)
Definition opt_truthy (x : option string) : bool :=
  match x with
  | Some s => PyStr.truthy s
  | None => false
  end.

(** [str(x)] where [x] is [None] or a string. *)
Definition str_of (x : option string) : string :=
  match x with
  | Some s => s
  | None => "None"
  end.

End Click.

(* ================================================================= *)
(** ** schema.py *)

Module SchemaKeys.
Definition SCHEMA_FILE_NAME : string := "schema/samcli.json".
Definition SCHEMA_DRAFT : string := "http://json-schema.org/draft-04/schema".
Definition TITLE : string := "AWS SAM CLI samconfig schema".
Definition ENVIRONMENT_REGEX : string := "^.+$".
End SchemaKeys.

Definition nl : string := String PyStr.newline EmptyString.

(** [class SamCliParameterSchema] *)
Module SamCliParameterSchema.
Import PyVal.

Record t : Type := {
  name : string;
  type : string;
  description : string;
  default : value;
  items : option string;
  choices : option (list string)
}.

Definition set_default (self : t) (v : value) : t :=
  {| name := name self; type := type self; description := description self;
     default := v; items := items self; choices := choices self |}.

Definition set_choices (self : t) (cs : option (list string)) : t :=
  {| name := name self; type := type self; description := description self;
     default := default self; items := items self; choices := cs |}.

Definition to_schema (self : t) : dict :=
  let param : dict := [] in
  let param :=
    dict_update param
      [("title", VStr (name self)); ("type", VStr (type self));
       ("description", VStr (description self))] in
  let param :=
    if truthy (default self)
    then dict_update param [("default", default self)]
    else param in
  let param :=
    match items self with
    | Some i =>
        if PyStr.truthy i
        then dict_update param [("items", VDict [("type", VStr i)])]
        else param
    | None => param
    end in
  let param :=
    match choices self with
    | Some cs =>
        if negb (is_empty cs)
        then dict_update param [("enum", VList (map VStr cs))]
        else param
    | None => param
    end in
  param.

End SamCliParameterSchema.

(** [class SamCliCommandSchema] *)
Module SamCliCommandSchema.
Import PyVal.

Record t : Type := {
  name : string;
  description : string;
  parameters : list SamCliParameterSchema.t
}.

Definition COMMANDS_TO_EXCLUDE : list string :=
  ["deploy"; "build"; "local"; "validate"; "package"; "init"; "delete";
   "bootstrap"; "list"; "traces"; "sync"; "publish"; "pipeline"; "logs";
   "remote"].

Definition split_cmd_name (self : t) : list string :=
  PyStr.split "_"%char (name self).

Definition formatted_cmd_name (self : t) : string :=
  PyStr.join " " (split_cmd_name self).

Definition exclude_params (self : t) : bool :=
  PyStr.in_list (PyStr.first (split_cmd_name self)) COMMANDS_TO_EXCLUDE.

Definition formatted_params_list (self : t) : string :=
  if negb (exclude_params self)
  then "* " ++
       PyStr.join (nl ++ "* ")
         (map (fun param =>
                 SamCliParameterSchema.name param ++ ":" ++ nl ++
                 SamCliParameterSchema.description param)
              (parameters self))
  else "".

Definition params_description (self : t) : string :=
  "Available parameters for the " ++ formatted_cmd_name self ++ " command:"
  ++ nl ++ formatted_params_list self.

(** [{param.name: param.to_schema() for param in params}] *)
Definition params_properties (params : list SamCliParameterSchema.t) : dict :=
  fold_left
    (fun acc param =>
       dict_set (SamCliParameterSchema.name param)
                (VDict (SamCliParameterSchema.to_schema param)) acc)
    params [].

(** The value stored under the command's name. *)
Definition command_entry (self : t) : value :=
  VDict
    [("title", VStr (PyStr.title (formatted_cmd_name self) ++ " command"));
     ("description", VStr (PyStr.or_else (description self) ""));
     ("properties",
      VDict
        [("parameters",
          VDict
            [("title",
              VStr ("Parameters for the " ++ formatted_cmd_name self ++ " command"));
             ("description", VStr (params_description self));
             ("type", VStr "object");
             ("properties",
              VDict (if negb (exclude_params self)
                     then params_properties (parameters self)
                     else []))])]);
     ("required", VList [VStr "parameters"])].

Definition to_schema (self : t) : dict :=
  [(name self, command_entry self)].

End SamCliCommandSchema.

Module Schema.
Import PyVal.

(** [clean_text]; the argument is [None] or a string. *)
Definition clean_text (text : option string) : string :=
  if negb (Click.opt_truthy text) then ""
  else
    match text with
    | Some t =>
        PyStr.strip None
          (PyStr.strip (Some nl) (PyStr.replace PyStr.backspace "" t))
    | None => ""
    end.

Definition string_kinds : list string :=
  ["text"; "path"; "choice"; "filename"; "directory"].

Definition format_param (param : Click.Param) : SamCliParameterSchema.t :=
  let param_type := PyStr.lower (Click.type_name (Click.type param)) in
  let formatted_param_type :=
    if PyStr.in_list param_type string_kinds then "string"
    else if String.eqb param_type "list" then "array"
    else PyStr.or_else param_type "string" in
  let formatted_param :=
    {| SamCliParameterSchema.name := Click.opt_or (Click.name param) "";
       SamCliParameterSchema.type := formatted_param_type;
       SamCliParameterSchema.description :=
         clean_text (Some (Click.opt_or (Click.help param) ""));
       SamCliParameterSchema.default := VNone;
       SamCliParameterSchema.items :=
         if String.eqb formatted_param_type "array" then Some "string" else None;
       SamCliParameterSchema.choices := None |} in
  let formatted_param :=
    if truthy (Click.default param)
    then SamCliParameterSchema.set_default formatted_param
           (tuple_as_list (Click.default param))
    else formatted_param in
  let formatted_param :=
    match Click.type_choices (Click.type param) with
    | Some cs =>
        if String.eqb (Click.type_name (Click.type param)) "choice"
        then SamCliParameterSchema.set_choices formatted_param (Some cs)
        else formatted_param
    | None => formatted_param
    end in
  formatted_param.

Definition params_to_exclude : list string := ["config_env"; "config_file"].

(** The condition of the comprehension in [get_params_from_command]. *)
Definition keep_param (param : Click.Param) : bool :=
  match Click.name param with
  | Some n =>
      PyStr.truthy n && Click.is_option param
      && negb (PyStr.in_list n params_to_exclude)
  | None => false
  end.

Definition get_params_from_command (cli : Click.Command)
  : list SamCliParameterSchema.t :=
  map format_param (filter keep_param (Click.cmd_params cli)).

Section Pipeline.

(** [SamConfig.to_key], [importlib.import_module] over the installed
    packages ([None] where the import raises), and the registry
    [_SAM_CLI_COMMAND_PACKAGES]. *)
Variable to_key : list string -> string.
Variable import_module : string -> option Click.PyModule.
Variable SAM_CLI_COMMAND_PACKAGES : list string.

Local Open Scope result_scope.

Definition do_import (package_name : string) : result Click.PyModule :=
  match import_module package_name with
  | Some m => Ok m
  | None => Raise (RaisedByImport package_name)
  end.

Definition get_cli (module : Click.PyModule) : result Click.Command :=
  match Click.mod_cli module with
  | Some c => Ok c
  | None => Raise (AttributeError "cli")
  end.

(** [module.__name__.split(".")[-1]] *)
Definition short_name (module : Click.PyModule) : string :=
  PyStr.last (PyStr.split "."%char (Click.mod_name module)).

Definition describe (c : Click.Command) : string :=
  clean_text
    (Some (Click.opt_or (Click.cmd_help c)
             (Click.opt_or (Click.cmd_short_help c) ""))).

Definition retrieve_command_structure (package_name : string)
  : result (list SamCliCommandSchema.t) :=
  module <- do_import package_name ;;
  cli <- get_cli module ;;
  let command : list SamCliCommandSchema.t := [] in
  match Click.cmd_commands cli with
  | Some commands =>
      Ok (fold_left
            (fun command subcommand =>
               let cmd_name :=
                 to_key [short_name module;
                         Click.str_of (Click.cmd_name subcommand)] in
               (command ++
                [ {| SamCliCommandSchema.name := cmd_name;
                     SamCliCommandSchema.description := describe subcommand;
                     SamCliCommandSchema.parameters :=
                       get_params_from_command subcommand |} ])%list)
            (Click.values commands) command)
  | None =>
      let cmd_name := to_key [short_name module] in
      Ok (command ++
          [ {| SamCliCommandSchema.name := cmd_name;
               SamCliCommandSchema.description := describe cli;
               SamCliCommandSchema.parameters :=
                 get_params_from_command cli |} ])%list
  end.

(** The first loop of [generate_schema]: [commands.extend(...)] for
    every registered package, stopping at the first exception. *)
Fixpoint extend_all (packages : list string)
  (commands : list SamCliCommandSchema.t)
  : result (list SamCliCommandSchema.t) :=
  match packages with
  | [] => Ok commands
  | package_name :: rest =>
      found <- retrieve_command_structure package_name ;;
      extend_all rest (commands ++ found)%list
  end.

(** [schema["patternProperties"][regex]["properties"].update(fragment)] *)
Definition update_environment (schema : dict) (fragment : dict) : dict :=
  dict_alter "patternProperties"
    (dict_alter SchemaKeys.ENVIRONMENT_REGEX
       (dict_alter "properties" (fun props => dict_update props fragment)))
    schema.

(** [generate_schema] up to the second loop. *)
Definition schema_header : dict :=
  let schema : dict := [] in
  let schema := dict_set "$schema" (VStr SchemaKeys.SCHEMA_DRAFT) schema in
  let schema := dict_set "title" (VStr SchemaKeys.TITLE) schema in
  let schema := dict_set "type" (VStr "object") schema in
  let schema :=
    dict_set "properties"
      (VDict [("version",
               VDict [("title", VStr "Config version");
                      ("type", VStr "number");
                      ("default", VFloat float_0_1)])])
      schema in
  let schema := dict_set "required" (VList [VStr "version"]) schema in
  let schema := dict_set "additionalProperties" (VBool false) schema in
  schema.

Definition generate_schema : result dict :=
  let schema := schema_header in
  commands <- extend_all SAM_CLI_COMMAND_PACKAGES [] ;;
  let schema :=
    dict_set "patternProperties"
      (VDict [(SchemaKeys.ENVIRONMENT_REGEX,
               VDict [("title", VStr "Environment");
                      ("properties", VDict [])])])
      schema in
  let schema :=
    fold_left
      (fun schema command =>
         update_environment schema (SamCliCommandSchema.to_schema command))
      commands schema in
  Ok schema.

End Pipeline.

End Schema.

(* ================================================================= *)
(** ** The specification's description of text cleaning *)

Module Spec.
Import PyStr.

Definition is_newline (c : ascii) : bool := Ascii.eqb c newline.

(** [cleaned text r]: [r] is what these three steps leave of [text]:
    every backspace (U+0008), and no other character, is deleted; then
    leading and trailing newlines are stripped; then leading and
    trailing whitespace. Absent or empty text gives the empty string. *)
Inductive cleaned : option string -> string -> Prop :=
| cleaned_absent : cleaned None EmptyString
| cleaned_empty : cleaned (Some EmptyString) EmptyString
| cleaned_steps t t0 t1 r :
    t <> EmptyString ->
    deleted backspace t t0 ->
    stripped is_newline t0 t1 ->
    stripped chr_isspace t1 r ->
    cleaned (Some t) r.

(** Control characters: the code points U+0000..U+001F and
    U+007F..U+009F, the backspace among them. *)
Definition is_control (c : ascii) : bool :=
  let n := code c in (n <? 32)%N || between 127 159 n.

(** [s] without its characters in [p]. *)
Fixpoint without (p : ascii -> bool) (s : string) : string :=
  match s with
  | EmptyString => EmptyString
  | String c s' => if p c then without p s' else String c (without p s')
  end.

(** [cleaned_as_stated text r]: the specification's words taken as they
    stand: the control characters are removed from the text, then
    leading and trailing newlines are stripped, then leading and
    trailing whitespace. *)
Inductive cleaned_as_stated : option string -> string -> Prop :=
| stated_absent : cleaned_as_stated None EmptyString
| stated_empty : cleaned_as_stated (Some EmptyString) EmptyString
| stated_steps t t1 r :
    t <> EmptyString ->
    stripped is_newline (without is_control t) t1 ->
    stripped chr_isspace t1 r ->
    cleaned_as_stated (Some t) r.

(** Whitespace or backspace: the characters [clean_text] can remove. *)
Definition blank_or_backspace (c : ascii) : bool :=
  chr_isspace c || Ascii.eqb c backspace.

(** A key that is present under a condition. *)
Definition when (b : bool) (k : string) : list string :=
  if b then [k] else [].

(** Paths into the schema document that the properties below read. *)
Definition parameters_path (cmd : SamCliCommandSchema.t) (k : string)
  : list string :=
  [SamCliCommandSchema.name cmd; "properties"; "parameters"; k].

Definition environment_path : list string :=
  ["patternProperties"; SchemaKeys.ENVIRONMENT_REGEX; "properties"].

(** The value [generate_schema] first stores under patternProperties. *)
Definition environment_wrapper : PyVal.value :=
  PyVal.VDict
    [(SchemaKeys.ENVIRONMENT_REGEX,
      PyVal.VDict [("title", PyVal.VStr "Environment");
                   ("properties", PyVal.VDict [])])].

(** The entry of one parameter in properties.parameters.properties. *)
Definition param_entry (param : SamCliParameterSchema.t) : PyVal.value :=
  PyVal.VDict (SamCliParameterSchema.to_schema param).

End Spec.

(* ================================================================= *)
(** ** A small registry, used to run the pipeline on concrete inputs *)

Module Example.
Import PyVal.

(** Modelled from the spec: [SamConfig.to_key] (samcli/lib/config/samconfig.py
    is not part of this file); the Key-Joiner turns a path of name segments
    into one key, with underscore as its delimiter. *)
Definition to_key (cmd_names : list string) : string :=
  PyStr.join "_" cmd_names.

Definition text : Click.ParamType :=
  {| Click.type_name := "text"; Click.type_choices := None |}.

Definition choice (cs : list string) : Click.ParamType :=
  {| Click.type_name := "choice"; Click.type_choices := Some cs |}.

Definition named (n : string) : Click.ParamType :=
  {| Click.type_name := n; Click.type_choices := None |}.

Definition opt (n : string) (ty : Click.ParamType) (h : string) (d : value)
  : Click.Param :=
  {| Click.is_option := true; Click.name := Some n; Click.type := ty;
     Click.help := Some h; Click.default := d |}.

Definition argument (n : string) : Click.Param :=
  {| Click.is_option := false; Click.name := Some n; Click.type := text;
     Click.help := None; Click.default := VNone |}.

Definition bar : Click.Param := opt "bar" text "Bar option" (VStr "baz").

Definition leaf (n : string) (h : string) (ps : list Click.Param)
  : Click.Command :=
  Click.MkCommand (Some n) (Some h) None ps None.

Definition foo : Click.Command := leaf "foo" "Foo command" [bar].

Definition grp : Click.Command :=
  Click.MkCommand (Some "grp") (Some "Group") None []
    (Some [("a", leaf "a" "First" [bar]); ("b", leaf "b" "Second" [])]).

(** Two sub-commands registered under different keys that carry the
    same [name]. *)
Definition twins : Click.Command :=
  Click.MkCommand (Some "dup") None None []
    (Some [("x", leaf "same" "Earlier" [bar]);
           ("y", leaf "same" "Later" [])]).

Definition import_module (package_name : string) : option Click.PyModule :=
  if String.eqb package_name "pkg.commands.foo"
  then Some {| Click.mod_name := "pkg.commands.foo"; Click.mod_cli := Some foo |}
  else if String.eqb package_name "pkg.commands.grp"
  then Some {| Click.mod_name := "pkg.commands.grp"; Click.mod_cli := Some grp |}
  else if String.eqb package_name "pkg.commands.dup"
  then Some {| Click.mod_name := "pkg.commands.dup"; Click.mod_cli := Some twins |}
  else None.

Definition packages : list string := ["pkg.commands.foo"; "pkg.commands.grp"].

(** A help text with the control character U+0007 at its start, inside
    and at its end. *)
Definition bell : ascii := "007"%char.
Definition belled : string :=
  String bell (String "a" (String bell (String "b" (String bell EmptyString)))).

(** A command schema with two parameters of one name. *)
Definition two_named_bar : SamCliCommandSchema.t :=
  {| SamCliCommandSchema.name := "foo";
     SamCliCommandSchema.description := "";
     SamCliCommandSchema.parameters :=
       [Schema.format_param (opt "bar" text "upper" VNone);
        Schema.format_param (opt "bar" text "lower" VNone)] |}.

End Example.

(* ================================================================= *)
(** * Properties *)

(** ** Facts about the string operations *)

Module PyStrFacts.
Import PyStr.

Lemma append_empty_r (s : string) : s ++ "" = s.
Proof. induction s as [|c s IH]; simpl; [reflexivity | now rewrite IH]. Qed.

Lemma append_assoc (a b c : string) : (a ++ b) ++ c = a ++ b ++ c.
Proof. induction a as [|x a IH]; simpl; [reflexivity | now rewrite IH]. Qed.

Lemma all_chars_app (q : ascii -> bool) (a b : string) :
  all_chars q (a ++ b) = all_chars q a && all_chars q b.
Proof.
  induction a as [|x a IH]; simpl; [reflexivity|].
  now rewrite IH, andb_assoc.
Qed.

Lemma all_chars_ext (q q' : ascii -> bool) (s : string) :
  (forall c, q c = q' c) -> all_chars q s = all_chars q' s.
Proof.
  intros E. induction s as [|c s IH]; simpl; [reflexivity|].
  now rewrite E, IH.
Qed.

Section Strip.
Variable p : ascii -> bool.

Lemma lstrip_by_prefix (pre s : string) :
  all_chars p pre = true -> lstrip_by p (pre ++ s) = lstrip_by p s.
Proof.
  induction pre as [|c pre IH]; simpl; intros H; [reflexivity|].
  apply andb_prop in H as [Hc Hpre]. rewrite Hc. auto.
Qed.

Lemma lstrip_by_all (s : string) :
  all_chars p s = true -> lstrip_by p s = "".
Proof.
  induction s as [|c s IH]; simpl; intros H; [reflexivity|].
  apply andb_prop in H as [Hc Hs]. rewrite Hc. auto.
Qed.

Lemma lstrip_by_fixed (s : string) :
  holds_at p (head_char s) = false -> lstrip_by p s = s.
Proof.
  destruct s as [|c s]; simpl; intros H; [reflexivity|].
  now rewrite H.
Qed.

Lemma lstrip_by_head (s : string) :
  holds_at p (head_char (lstrip_by p s)) = false.
Proof.
  induction s as [|c s IH]; simpl; [reflexivity|].
  destruct (p c) eqn:Ec; [exact IH | simpl; exact Ec].
Qed.

Lemma lstrip_by_split (s : string) :
  exists pre, s = pre ++ lstrip_by p s /\ all_chars p pre = true.
Proof.
  induction s as [|c s [pre [E H]]]; simpl.
  - exists ""; auto.
  - destruct (p c) eqn:Ec.
    + exists (String c pre); simpl. rewrite Ec, H. split; [f_equal; exact E | reflexivity].
    + exists ""; auto.
Qed.

Lemma rstrip_by_cons (c : ascii) (s : string) :
  rstrip_by p (String c s) =
  match rstrip_by p s with
  | EmptyString => if p c then "" else String c ""
  | r => String c r
  end.
Proof. reflexivity. Qed.

Lemma rstrip_by_empty (s : string) :
  rstrip_by p s = "" <-> all_chars p s = true.
Proof.
  induction s as [|c s IH]; [simpl; tauto|].
  rewrite rstrip_by_cons. simpl all_chars.
  destruct (rstrip_by p s) eqn:E.
  - destruct (p c); simpl.
    + split; intros _; [apply IH|]; reflexivity.
    + split; discriminate.
  - split; [discriminate|]. intros H.
    apply andb_prop in H as [_ H]. apply IH in H. discriminate.
Qed.

Lemma rstrip_by_suffix (s suf : string) :
  all_chars p suf = true -> rstrip_by p (s ++ suf) = rstrip_by p s.
Proof.
  intros H. induction s as [|c s IH].
  - simpl. now apply rstrip_by_empty.
  - change (String c s ++ suf) with (String c (s ++ suf)).
    now rewrite !rstrip_by_cons, IH.
Qed.

Lemma rstrip_by_fixed (s : string) :
  holds_at p (last_char s) = false -> rstrip_by p s = s.
Proof.
  induction s as [|c s IH]; [reflexivity|].
  rewrite rstrip_by_cons. destruct s as [|d s].
  - simpl. intros H. now rewrite H.
  - intros H. change (last_char (String c (String d s))) with (last_char (String d s)) in H.
    now rewrite (IH H).
Qed.

Lemma rstrip_by_last (s : string) :
  holds_at p (last_char (rstrip_by p s)) = false.
Proof.
  induction s as [|c s IH]; [reflexivity|].
  rewrite rstrip_by_cons. destruct (rstrip_by p s) as [|d r] eqn:E.
  - destruct (p c) eqn:Ec; simpl; [reflexivity | exact Ec].
  - exact IH.
Qed.

Lemma rstrip_by_split (s : string) :
  exists suf, s = rstrip_by p s ++ suf /\ all_chars p suf = true.
Proof.
  induction s as [|c s [suf [E H]]].
  - exists ""; auto.
  - rewrite rstrip_by_cons. destruct (rstrip_by p s) as [|d r] eqn:Er.
    + simpl in E. subst suf. destruct (p c) eqn:Ec.
      * exists (String c s). simpl. now rewrite Ec, H.
      * exists s. auto.
    + exists suf. split; [simpl; f_equal; exact E | exact H].
Qed.

Lemma rstrip_by_head (s : string) :
  holds_at p (head_char s) = false ->
  holds_at p (head_char (rstrip_by p s)) = false.
Proof.
  destruct s as [|c s]; [auto|].
  rewrite rstrip_by_cons. simpl. intros H.
  destruct (rstrip_by p s); [rewrite H|]; simpl; exact H.
Qed.

Lemma strip_by_stripped (s : string) :
  stripped p s (rstrip_by p (lstrip_by p s)).
Proof.
  destruct (lstrip_by_split s) as [pre [E1 H1]].
  destruct (rstrip_by_split (lstrip_by p s)) as [suf [E2 H2]].
  exists pre, suf. repeat split; auto.
  - now rewrite <- E2.
  - apply rstrip_by_head, lstrip_by_head.
  - apply rstrip_by_last.
Qed.

Lemma stripped_unique (s r : string) :
  stripped p s r -> r = rstrip_by p (lstrip_by p s).
Proof.
  intros [pre [suf [E [Hpre [Hsuf [Hh Hl]]]]]]. subst s.
  rewrite lstrip_by_prefix by exact Hpre.
  destruct r as [|c r].
  - simpl. rewrite lstrip_by_all by exact Hsuf. reflexivity.
  - rewrite lstrip_by_fixed by exact Hh.
    rewrite rstrip_by_suffix by exact Hsuf.
    now rewrite rstrip_by_fixed.
Qed.

Lemma lstrip_by_all_chars (q : ascii -> bool) (s : string) :
  all_chars q s = true -> all_chars q (lstrip_by p s) = true.
Proof.
  destruct (lstrip_by_split s) as [pre [E _]]. intros H.
  rewrite E, all_chars_app in H. now apply andb_prop in H.
Qed.

Lemma rstrip_by_all_chars (q : ascii -> bool) (s : string) :
  all_chars q s = true -> all_chars q (rstrip_by p s) = true.
Proof.
  destruct (rstrip_by_split s) as [suf [E _]]. intros H.
  rewrite E, all_chars_app in H. now apply andb_prop in H.
Qed.

End Strip.

Lemma lstrip_by_ext (p q : ascii -> bool) (s : string) :
  (forall c, p c = q c) -> lstrip_by p s = lstrip_by q s.
Proof.
  intros E. induction s as [|c s IH]; simpl; [reflexivity|].
  now rewrite E, IH.
Qed.

Lemma rstrip_by_ext (p q : ascii -> bool) (s : string) :
  (forall c, p c = q c) -> rstrip_by p s = rstrip_by q s.
Proof.
  intros E. induction s as [|c s IH]; [reflexivity|].
  now rewrite !rstrip_by_cons, E, IH.
Qed.

Lemma replace_all_chars (old : ascii) (s : string) :
  all_chars (differs old) (replace old "" s) = true.
Proof.
  induction s as [|c s IH]; simpl; [reflexivity|].
  destruct (Ascii.eqb c old) eqn:E; simpl; [exact IH|].
  unfold differs at 1. now rewrite E, IH.
Qed.

Lemma replace_fixed (old : ascii) (new s : string) :
  all_chars (differs old) s = true -> replace old new s = s.
Proof.
  induction s as [|c s IH]; simpl; intros H; [reflexivity|].
  apply andb_prop in H as [Hc Hs]. unfold differs in Hc.
  apply negb_true_iff in Hc. now rewrite Hc, IH.
Qed.

Lemma replace_deleted (old : ascii) (s : string) :
  deleted old s (replace old "" s).
Proof.
  induction s as [|c s IH]; simpl; [constructor|].
  destruct (Ascii.eqb c old) eqn:E.
  - apply Ascii.eqb_eq in E. subst c. simpl. now constructor.
  - apply Ascii.eqb_neq in E. now constructor.
Qed.

Lemma deleted_unique (old : ascii) (s r : string) :
  deleted old s r -> r = replace old "" s.
Proof.
  induction 1 as [|s r _ IH|d s r Hd _ IH]; simpl.
  - reflexivity.
  - now rewrite Ascii.eqb_refl.
  - apply Ascii.eqb_neq in Hd. now rewrite Hd, IH.
Qed.

End PyStrFacts.

(* ================================================================= *)
(** ** [clean_text] *)

Module CleanText.
Import PyStr PyStrFacts Schema.

Lemma holds_at_weaken (p q : ascii -> bool) (o : option ascii) :
  (forall c, p c = true -> q c = true) ->
  holds_at q o = false -> holds_at p o = false.
Proof.
  intros W. destruct o as [c|]; simpl; [|reflexivity].
  intros H. destruct (p c) eqn:E; [|reflexivity].
  apply W in E. congruence.
Qed.

Lemma holds_at_ext (p q : ascii -> bool) (o : option ascii) :
  (forall c, p c = q c) -> holds_at p o = holds_at q o.
Proof. intros E. destruct o; simpl; auto. Qed.

Lemma stripped_ext (p q : ascii -> bool) (s r : string) :
  (forall c, p c = q c) -> stripped p s r -> stripped q s r.
Proof.
  intros E [pre [suf [Es [Hpre [Hsuf [Hh Hl]]]]]].
  exists pre, suf.
  rewrite <- (all_chars_ext p q pre E), <- (all_chars_ext p q suf E).
  rewrite <- (holds_at_ext p q _ E), <- (holds_at_ext p q _ E).
  auto.
Qed.

Lemma newline_set (c : ascii) : mem c nl = Spec.is_newline c.
Proof. unfold nl, Spec.is_newline. simpl. apply orb_false_r. Qed.

Lemma newline_isspace (c : ascii) : mem c nl = true -> chr_isspace c = true.
Proof.
  rewrite newline_set. unfold Spec.is_newline. intros H.
  apply Ascii.eqb_eq in H. subst c. reflexivity.
Qed.

Lemma clean_text_nonempty (t : string) :
  t <> "" ->
  clean_text (Some t) =
  strip None (strip (Some nl) (replace backspace "" t)).
Proof. destruct t; [congruence | reflexivity]. Qed.

Lemma strip_fixed (chars : option string) (s : string) :
  holds_at (strip_set chars) (head_char s) = false ->
  holds_at (strip_set chars) (last_char s) = false ->
  strip chars s = s.
Proof.
  intros Hh Hl. unfold strip.
  rewrite lstrip_by_fixed by exact Hh. now apply rstrip_by_fixed.
Qed.

Lemma strip_all_chars (chars : option string) (q : ascii -> bool) (s : string) :
  all_chars q s = true -> all_chars q (strip chars s) = true.
Proof.
  intros H. unfold strip. now apply rstrip_by_all_chars, lstrip_by_all_chars.
Qed.

(** What every result of [clean_text] looks like. *)
Lemma clean_text_shape (text : option string) :
  holds_at chr_isspace (head_char (clean_text text)) = false /\
  holds_at chr_isspace (last_char (clean_text text)) = false /\
  all_chars (differs backspace) (clean_text text) = true.
Proof.
  destruct text as [[|c t]|]; try (cbn; auto; fail).
  rewrite clean_text_nonempty by discriminate.
  repeat split.
  - apply (rstrip_by_head chr_isspace), lstrip_by_head.
  - apply (rstrip_by_last chr_isspace).
  - apply strip_all_chars, strip_all_chars, replace_all_chars.
Qed.

Lemma clean_text_fixed (r : string) :
  holds_at chr_isspace (head_char r) = false ->
  holds_at chr_isspace (last_char r) = false ->
  all_chars (differs backspace) r = true ->
  clean_text (Some r) = r.
Proof.
  intros Hh Hl Hb. destruct r as [|c r]; [reflexivity|].
  rewrite clean_text_nonempty by discriminate.
  rewrite replace_fixed by exact Hb.
  rewrite (strip_fixed (Some nl)).
  - now apply strip_fixed.
  - apply (holds_at_weaken _ chr_isspace); [apply newline_isspace | exact Hh].
  - apply (holds_at_weaken _ chr_isspace); [apply newline_isspace | exact Hl].
Qed.

(** C9. Cleaning is idempotent: cleaning the result of [clean_text]
    returns it unchanged, whatever the first argument was; and
    [clean_text] of [None] or of the empty string is the empty string. *)
Theorem clean_text_idempotent :
  (forall s : string,
      clean_text (Some (clean_text (Some s))) = clean_text (Some s)) /\
  (forall text : option string,
      clean_text (Some (clean_text text)) = clean_text text) /\
  clean_text None = "" /\
  clean_text (Some "") = "".
Proof.
  assert (I : forall text, clean_text (Some (clean_text text)) = clean_text text).
  { intros text. destruct (clean_text_shape text) as [Hh [Hl Hb]].
    now apply clean_text_fixed. }
  repeat split; auto.
Qed.

(** C10, as the code has it. The description-cleaning step deletes every
    backspace (U+0008) and no other character, strips leading and
    trailing newlines, then strips the remaining leading and trailing
    whitespace, and gives the empty string for absent or empty input:
    [clean_text text] is the one string that these steps leave. *)
Theorem clean_text_steps (text : option string) :
  Spec.cleaned text (clean_text text) /\
  (forall r, Spec.cleaned text r -> r = clean_text text).
Proof.
  split.
  - destruct text as [[|c t]|]; try constructor.
    rewrite clean_text_nonempty by discriminate.
    apply Spec.cleaned_steps
      with (t0 := replace backspace "" (String c t))
           (t1 := strip (Some nl) (replace backspace "" (String c t))).
    + discriminate.
    + apply replace_deleted.
    + apply (stripped_ext (strip_set (Some nl))); [apply newline_set|].
      apply strip_by_stripped.
    + apply (strip_by_stripped chr_isspace).
  - intros r H. inversion H as [| |t t0 t1 r' Hne Hd Hs1 Hs2]; subst; try reflexivity.
    rewrite clean_text_nonempty by exact Hne.
    apply deleted_unique in Hd. subst t0.
    apply (stripped_ext _ (strip_set (Some nl))) in Hs1;
      [|intros c; symmetry; apply newline_set].
    apply stripped_unique in Hs1. apply stripped_unique in Hs2.
    subst t1. exact Hs2.
Qed.

(** C10 as stated fails: a text with the control character U+0007 at
    its start, inside and at its end comes back unchanged, so control
    characters other than the backspace are not stripped, neither from
    the ends nor from the inside; the steps as the specification words
    them would leave "ab". *)
Lemma clean_text_keeps_bell :
  Spec.is_control Example.bell = true /\
  clean_text (Some Example.belled) = Example.belled /\
  holds_at Spec.is_control (head_char (clean_text (Some Example.belled))) = true /\
  holds_at Spec.is_control (last_char (clean_text (Some Example.belled))) = true /\
  all_chars (fun c => negb (Spec.is_control c))
            (clean_text (Some Example.belled)) = false /\
  Spec.cleaned_as_stated (Some Example.belled) "ab" /\
  ~ Spec.cleaned_as_stated (Some Example.belled)
      (clean_text (Some Example.belled)).
Proof.
  repeat split.
  - apply Spec.stated_steps with (t1 := "ab"); [discriminate| |].
    + exists "", "". repeat split.
    + exists "", "". repeat split.
  - intros H. inversion H as [| |t t1 r _ H1 H2]; subst.
    apply stripped_unique in H1. cbv in H1. subst t1.
    apply stripped_unique in H2. cbv in H2. discriminate H2.
Qed.

End CleanText.

(* ================================================================= *)
(** ** [format_param] and [get_params_from_command] *)

Module Normalizer.
Import PyVal Schema.

Lemma in_list_In (x : string) (xs : list string) :
  PyStr.in_list x xs = true <-> In x xs.
Proof.
  induction xs as [|y ys IH]; simpl.
  - split; [discriminate | tauto].
  - rewrite orb_true_iff, IH, String.eqb_eq. split; intros [H|H]; auto.
Qed.

Lemma in_list_not_In (x : string) (xs : list string) :
  PyStr.in_list x xs = false <-> ~ In x xs.
Proof.
  rewrite <- in_list_In. destruct (PyStr.in_list x xs); split; congruence.
Qed.

Lemma lower_empty (s : string) : PyStr.lower s = "" <-> s = "".
Proof. destruct s; cbn; split; intros H; try reflexivity; discriminate H. Qed.

(** The fields of a normalized parameter, read off the code. *)
Lemma format_param_type_eq (param : Click.Param) :
  SamCliParameterSchema.type (format_param param) =
  let param_type := PyStr.lower (Click.type_name (Click.type param)) in
  if PyStr.in_list param_type string_kinds then "string"
  else if String.eqb param_type "list" then "array"
  else PyStr.or_else param_type "string".
Proof.
  unfold format_param.
  destruct (truthy (Click.default param));
    destruct (Click.type_choices (Click.type param));
    try destruct (String.eqb (Click.type_name (Click.type param)) "choice");
    reflexivity.
Qed.

Lemma format_param_items_eq (param : Click.Param) :
  SamCliParameterSchema.items (format_param param) =
  if String.eqb (SamCliParameterSchema.type (format_param param)) "array"
  then Some "string" else None.
Proof.
  rewrite format_param_type_eq. unfold format_param.
  destruct (truthy (Click.default param));
    destruct (Click.type_choices (Click.type param));
    try destruct (String.eqb (Click.type_name (Click.type param)) "choice");
    reflexivity.
Qed.

Lemma format_param_default_eq (param : Click.Param) :
  SamCliParameterSchema.default (format_param param) =
  if truthy (Click.default param)
  then tuple_as_list (Click.default param)
  else VNone.
Proof.
  unfold format_param.
  destruct (truthy (Click.default param));
    destruct (Click.type_choices (Click.type param));
    try destruct (String.eqb (Click.type_name (Click.type param)) "choice");
    reflexivity.
Qed.

Lemma format_param_choices_eq (param : Click.Param) :
  SamCliParameterSchema.choices (format_param param) =
  match Click.type_choices (Click.type param) with
  | Some cs =>
      if String.eqb (Click.type_name (Click.type param)) "choice"
      then Some cs else None
  | None => None
  end.
Proof.
  unfold format_param.
  destruct (truthy (Click.default param));
    destruct (Click.type_choices (Click.type param));
    try destruct (String.eqb (Click.type_name (Click.type param)) "choice");
    reflexivity.
Qed.

Lemma format_param_name_eq (param : Click.Param) :
  SamCliParameterSchema.name (format_param param) =
  Click.opt_or (Click.name param) "".
Proof.
  unfold format_param.
  destruct (truthy (Click.default param));
    destruct (Click.type_choices (Click.type param));
    try destruct (String.eqb (Click.type_name (Click.type param)) "choice");
    reflexivity.
Qed.

(** The keys that [to_schema] emits conditionally. *)
Lemma to_schema_default (sp : SamCliParameterSchema.t) :
  dict_get "default" (SamCliParameterSchema.to_schema sp) =
  if truthy (SamCliParameterSchema.default sp)
  then Some (SamCliParameterSchema.default sp) else None.
Proof.
  unfold SamCliParameterSchema.to_schema.
  destruct (truthy (SamCliParameterSchema.default sp));
    destruct (SamCliParameterSchema.items sp) as [i|];
    try destruct (PyStr.truthy i);
    destruct (SamCliParameterSchema.choices sp) as [cs|];
    try destruct (is_empty cs);
    reflexivity.
Qed.

Lemma to_schema_enum (sp : SamCliParameterSchema.t) :
  dict_get "enum" (SamCliParameterSchema.to_schema sp) =
  match SamCliParameterSchema.choices sp with
  | Some (c :: cs) => Some (VList (map VStr (c :: cs)))
  | _ => None
  end.
Proof.
  unfold SamCliParameterSchema.to_schema.
  destruct (truthy (SamCliParameterSchema.default sp));
    destruct (SamCliParameterSchema.items sp) as [i|];
    try destruct (PyStr.truthy i);
    destruct (SamCliParameterSchema.choices sp) as [[|c cs]|];
    reflexivity.
Qed.

Lemma truthy_tuple_as_list (d : value) :
  truthy (tuple_as_list d) = truthy d.
Proof. destruct d; reflexivity. Qed.

(** C2, as the code has it. A declared type whose lower-cased name is one
    of text, path, choice, filename, directory is normalized to "string";
    "list" to "array" with items "string"; any other declared type name to
    its lower-cased form, and to "string" when the name is empty. *)
Theorem format_param_type (param : Click.Param) :
  let declared := Click.type_name (Click.type param) in
  let normalized := format_param param in
  (In (PyStr.lower declared) string_kinds ->
   SamCliParameterSchema.type normalized = "string") /\
  (PyStr.lower declared = "list" ->
   SamCliParameterSchema.type normalized = "array" /\
   SamCliParameterSchema.items normalized = Some "string") /\
  (~ In (PyStr.lower declared) string_kinds ->
   PyStr.lower declared <> "list" ->
   (declared <> "" ->
    SamCliParameterSchema.type normalized = PyStr.lower declared) /\
   (declared = "" -> SamCliParameterSchema.type normalized = "string")).
Proof.
  cbv zeta. rewrite format_param_items_eq, !format_param_type_eq. cbv zeta.
  remember (PyStr.lower (Click.type_name (Click.type param))) as low eqn:Elow.
  split; [|split].
  - intros H. apply in_list_In in H. now rewrite H.
  - intros H. subst low. rewrite H. split; reflexivity.
  - intros Hk Hl. apply in_list_not_In in Hk. apply String.eqb_neq in Hl.
    rewrite Hk, Hl. split.
    + intros Hne. unfold PyStr.or_else.
      destruct low as [|c low]; [|reflexivity].
      symmetry in Elow. apply (proj1 (lower_empty _)) in Elow. contradiction.
    + intros He. rewrite He in Elow. subst low. reflexivity.
Qed.

Lemma format_param_type_witness :
  SamCliParameterSchema.type
    (format_param (Example.opt "x" (Example.named "PATH") "" VNone)) = "string"
  /\ SamCliParameterSchema.items
    (format_param (Example.opt "x" (Example.named "List") "" VNone)) = Some "string"
  /\ SamCliParameterSchema.type
    (format_param (Example.opt "x" (Example.named "Decimal") "" VNone)) = "decimal"
  /\ SamCliParameterSchema.type
    (format_param (Example.opt "x" (Example.named "") "" VNone)) = "string".
Proof.
  split; [|split; [|split]].
  - refine (proj1 (format_param_type
                     (Example.opt "x" (Example.named "PATH") "" VNone)) _).
    cbv. auto 10.
  - refine (proj2 (proj1 (proj2 (format_param_type
                     (Example.opt "x" (Example.named "List") "" VNone))) _)).
    reflexivity.
  - refine (proj1 (proj2 (proj2 (format_param_type
                     (Example.opt "x" (Example.named "Decimal") "" VNone))) _ _) _).
    + cbv. intuition discriminate.
    + discriminate.
    + discriminate.
  - refine (proj2 (proj2 (proj2 (format_param_type
                     (Example.opt "x" (Example.named "") "" VNone))) _ _) _).
    + cbv. intuition discriminate.
    + discriminate.
    + reflexivity.
Defined.

(** C2 as stated fails: a declared type named "Decimal" is in neither
    table and is not empty, yet the normalized type is "decimal", not the
    declared name. *)
Lemma format_param_type_not_verbatim :
  ~ In (PyStr.lower "Decimal") string_kinds /\
  PyStr.lower "Decimal" <> "list" /\
  Click.type_name
    (Click.type (Example.opt "x" (Example.named "Decimal") "" VNone)) = "Decimal" /\
  SamCliParameterSchema.type
    (format_param (Example.opt "x" (Example.named "Decimal") "" VNone)) = "decimal" /\
  SamCliParameterSchema.type
    (format_param (Example.opt "x" (Example.named "Decimal") "" VNone)) <>
  Click.type_name
    (Click.type (Example.opt "x" (Example.named "Decimal") "" VNone)).
Proof.
  repeat split; try discriminate.
  simpl. intuition discriminate.
Qed.

(** C4. A falsy default (None, the empty string, 0, False, an empty
    sequence) leaves no "default" key in the emitted fragment of the
    normalized parameter; a truthy default is emitted unchanged, except
    that a tuple is emitted as the list of its elements. *)
Theorem format_param_default (param : Click.Param) :
  dict_get "default" (SamCliParameterSchema.to_schema (format_param param)) =
  (if truthy (Click.default param)
   then Some (tuple_as_list (Click.default param))
   else None)
  /\ (forall elems, tuple_as_list (VTuple elems) = VList elems)
  /\ (forall d, (forall elems, d <> VTuple elems) -> tuple_as_list d = d)
  /\ truthy VNone = false
  /\ truthy (VStr "") = false
  /\ truthy (VInt 0) = false
  /\ truthy (VBool false) = false
  /\ truthy (VTuple []) = false
  /\ truthy (VList []) = false.
Proof.
  repeat split.
  - rewrite to_schema_default, format_param_default_eq.
    destruct (truthy (Click.default param)) eqn:E; [|reflexivity].
    now rewrite truthy_tuple_as_list, E.
  - intros d H. destruct d; try reflexivity. now destruct (H items).
Qed.

(** C8, as the code has it. The items field of a normalized parameter is
    present exactly when its type is "array". The choices field is present
    only when the declared type is named "choice" and is a choice type,
    and it is then the list of strings that type allows, empty when that
    list is empty; the emitted fragment has an "enum" key exactly for a
    non-empty choices field. *)
Theorem format_param_items_choices (param : Click.Param) :
  let normalized := format_param param in
  (SamCliParameterSchema.items normalized <> None <->
   SamCliParameterSchema.type normalized = "array") /\
  (forall cs,
      SamCliParameterSchema.choices normalized = Some cs <->
      Click.type_name (Click.type param) = "choice" /\
      Click.type_choices (Click.type param) = Some cs) /\
  dict_get "enum" (SamCliParameterSchema.to_schema normalized) =
  match SamCliParameterSchema.choices normalized with
  | Some (c :: cs) => Some (VList (map VStr (c :: cs)))
  | _ => None
  end.
Proof.
  cbv zeta. split; [|split].
  - rewrite format_param_items_eq.
    destruct (String.eqb _ "array") eqn:E.
    + apply String.eqb_eq in E. split; [auto | discriminate].
    + apply String.eqb_neq in E. split; [congruence | contradiction].
  - intros cs. rewrite format_param_choices_eq.
    destruct (Click.type_choices (Click.type param)) as [cs'|].
    + destruct (String.eqb _ "choice") eqn:E.
      * apply String.eqb_eq in E. split; [intros H; now inversion H | tauto].
      * apply String.eqb_neq in E. split; [discriminate | tauto].
    + split; [discriminate | intros [_ H]; discriminate].
  - apply to_schema_enum.
Qed.

(** C8 as stated fails: a choice type that allows nothing gives a
    normalized parameter whose choices field is present and empty. *)
Lemma format_param_choices_may_be_empty :
  Click.type_name
    (Click.type (Example.opt "x" (Example.choice []) "" VNone)) = "choice" /\
  SamCliParameterSchema.choices
    (format_param (Example.opt "x" (Example.choice []) "" VNone)) = Some [] /\
  SamCliParameterSchema.choices
    (format_param (Example.opt "x" (Example.choice []) "" VNone)) <> None.
Proof. repeat split. discriminate. Qed.

End Normalizer.

(* ================================================================= *)
(** ** Facts about dictionaries *)

Module DictFacts.
Import PyVal.

Lemma dict_get_set (k k' : string) (v : value) (d : dict) :
  dict_get k (dict_set k' v d) =
  if String.eqb k k' then Some v else dict_get k d.
Proof.
  induction d as [|[k0 v0] d IH]; simpl; [reflexivity|].
  destruct (String.eqb k' k0) eqn:E1; simpl.
  - apply String.eqb_eq in E1. subst k0.
    destruct (String.eqb k k'); reflexivity.
  - rewrite IH. destruct (String.eqb k k0) eqn:E2; [|reflexivity].
    apply String.eqb_eq in E2. subst k0.
    destruct (String.eqb k k') eqn:E3; [|reflexivity].
    apply String.eqb_eq in E3. subst k'.
    rewrite String.eqb_refl in E1. discriminate.
Qed.

Lemma dict_keys_set (k k' : string) (v : value) (d : dict) :
  In k (dict_keys (dict_set k' v d)) <-> k = k' \/ In k (dict_keys d).
Proof.
  induction d as [|[k0 v0] d IH]; simpl.
  - intuition.
  - destruct (String.eqb k' k0) eqn:E; simpl.
    + apply String.eqb_eq in E. subst k0. intuition.
    + rewrite IH. intuition.
Qed.

Lemma dict_set_NoDup (k : string) (v : value) (d : dict) :
  NoDup (dict_keys d) -> NoDup (dict_keys (dict_set k v d)).
Proof.
  induction d as [|[k0 v0] d IH]; simpl; intros H.
  - constructor; [intros [] | constructor].
  - inversion H as [|? ? Hn Hd]; subst.
    destruct (String.eqb k k0) eqn:E; simpl.
    + apply String.eqb_eq in E. subst k0. now constructor.
    + constructor; [|now apply IH].
      intros Hin. apply dict_keys_set in Hin as [Hin|Hin]; [|contradiction].
      subst k0. rewrite String.eqb_refl in E. discriminate.
Qed.

Lemma dict_set_fresh (k : string) (v : value) (d : dict) :
  ~ In k (dict_keys d) -> dict_set k v d = (d ++ [(k, v)])%list.
Proof.
  induction d as [|[k0 v0] d IH]; simpl; intros H; [reflexivity|].
  destruct (String.eqb k k0) eqn:E.
  - apply String.eqb_eq in E. subst k0. tauto.
  - rewrite IH by tauto. reflexivity.
Qed.

Lemma dict_get_alter (k k' : string) (f : dict -> dict) (d : dict) :
  dict_get k (dict_alter k' f d) =
  if String.eqb k k'
  then match dict_get k d with
       | Some (VDict e) => Some (VDict (f e))
       | other => other
       end
  else dict_get k d.
Proof.
  induction d as [|[k0 v0] d IH]; simpl.
  - destruct (String.eqb k k'); reflexivity.
  - destruct (String.eqb k' k0) eqn:E1; simpl.
    + apply String.eqb_eq in E1. subst k0.
      destruct (String.eqb k k'); [destruct v0|]; reflexivity.
    + rewrite IH. destruct (String.eqb k k0) eqn:E2; [|reflexivity].
      apply String.eqb_eq in E2. subst k0.
      destruct (String.eqb k k') eqn:E3; [|reflexivity].
      apply String.eqb_eq in E3. subst k'.
      rewrite String.eqb_refl in E1. discriminate.
Qed.

Lemma find_app {A : Type} (f : A -> bool) (l l' : list A) :
  find f (l ++ l') =
  match find f l with Some y => Some y | None => find f l' end.
Proof.
  induction l as [|x l IH]; simpl; [reflexivity|].
  destruct (f x); [reflexivity | exact IH].
Qed.

Lemma find_skip {A : Type} (f : A -> bool) (l : list A) :
  (forall y, In y l -> f y = false) -> find f l = None.
Proof.
  induction l as [|x l IH]; simpl; intros H; [reflexivity|].
  rewrite (H x) by auto. apply IH. auto.
Qed.

(** Storing the elements of a list one after the other, each under its
    key: what the comprehension of [SamCliCommandSchema.to_schema] and
    the second loop of [generate_schema] do. *)
Section Put.
Variable A : Type.
Variable key : A -> string.
Variable val : A -> value.

Local Abbreviation put := (PyVal.put key val).

Lemma dict_get_put (n : string) (xs : list A) (d : dict) :
  dict_get n (put xs d) =
  match find (fun x => String.eqb (key x) n) (rev xs) with
  | Some x => Some (val x)
  | None => dict_get n d
  end.
Proof.
  revert d. induction xs as [|x xs IH]; intros d; simpl; [reflexivity|].
  unfold PyVal.put in *. rewrite IH, find_app. simpl.
  destruct (find _ (rev xs)); [reflexivity|].
  rewrite dict_get_set, String.eqb_sym.
  destruct (String.eqb (key x) n); reflexivity.
Qed.

Lemma dict_keys_put (n : string) (xs : list A) (d : dict) :
  In n (dict_keys (put xs d)) <-> In n (map key xs) \/ In n (dict_keys d).
Proof.
  revert d. induction xs as [|x xs IH]; intros d; simpl; [tauto|].
  unfold PyVal.put in *. rewrite IH, dict_keys_set. intuition.
Qed.

Lemma put_NoDup (xs : list A) (d : dict) :
  NoDup (dict_keys d) -> NoDup (dict_keys (put xs d)).
Proof.
  revert d. induction xs as [|x xs IH]; intros d H; simpl; [exact H|].
  apply IH, dict_set_NoDup, H.
Qed.

Lemma put_fresh (xs : list A) (d : dict) :
  NoDup (map key xs) ->
  (forall x, In x xs -> ~ In (key x) (dict_keys d)) ->
  put xs d = (d ++ map (fun x => (key x, val x)) xs)%list.
Proof.
  revert d. induction xs as [|x xs IH]; intros d Hn Hd; simpl.
  - now rewrite app_nil_r.
  - inversion Hn as [|? ? Hx Hxs]; subst.
    unfold PyVal.put in *. simpl.
    rewrite dict_set_fresh by (apply Hd; simpl; auto).
    rewrite IH; [now rewrite <- app_assoc | exact Hxs |].
    intros y Hy Hin. unfold dict_keys in Hin.
    rewrite map_app in Hin. apply in_app_or in Hin as [Hin|Hin].
    + apply (Hd y); simpl; auto.
    + simpl in Hin. destruct Hin as [Hin|[]].
      apply Hx. rewrite Hin. now apply in_map.
Qed.

(** The element stored last under a name is the one found there. *)
Lemma dict_get_put_last (xs earlier later : list A) (x : A) (d : dict) :
  xs = (earlier ++ x :: later)%list ->
  (forall y, In y later -> key y <> key x) ->
  dict_get (key x) (put xs d) = Some (val x).
Proof.
  intros E H. subst xs. rewrite dict_get_put.
  rewrite rev_app_distr. simpl. rewrite <- app_assoc, find_app.
  rewrite find_skip.
  - simpl. now rewrite String.eqb_refl.
  - intros y Hy. apply in_rev in Hy. apply String.eqb_neq. now apply H.
Qed.

End Put.

End DictFacts.

(* ================================================================= *)
(** ** Parameter extraction *)

Module Extraction.
Import PyVal Schema Normalizer.

Lemma keep_param_spec (param : Click.Param) :
  keep_param param = true <->
  Click.is_option param = true /\
  exists n, Click.name param = Some n /\ n <> "" /\
            n <> "config_env" /\ n <> "config_file".
Proof.
  unfold keep_param. destruct (Click.name param) as [n|].
  - rewrite !andb_true_iff, negb_true_iff, in_list_not_In.
    unfold params_to_exclude. simpl. split.
    + intros [[Hn Ho] Hx]. split; [exact Ho|]. exists n.
      split; [reflexivity|]. split; [|split].
      * intros E. subst n. discriminate Hn.
      * intros E. apply Hx. auto.
      * intros E. apply Hx. auto.
    + intros [Ho [m [Em [Hne [H1 H2]]]]]. inversion Em; subst m.
      repeat split; auto.
      * destruct n; [contradiction | reflexivity].
      * intros [E|[E|[]]]; congruence.
  - split; [discriminate|]. intros [_ [n [E _]]]. discriminate.
Qed.

Lemma get_params_from_command_In (cli : Click.Command)
  (sp : SamCliParameterSchema.t) :
  In sp (get_params_from_command cli) <->
  exists param, In param (Click.cmd_params cli) /\
                keep_param param = true /\ sp = format_param param.
Proof.
  unfold get_params_from_command. rewrite in_map_iff. split.
  - intros [param [E H]]. apply filter_In in H as [H K]. eauto.
  - intros [param [H [K E]]]. exists param. split; [auto|].
    apply filter_In. auto.
Qed.

Lemma kept_name (param : Click.Param) (n : string) :
  Click.name param = Some n -> n <> "" ->
  SamCliParameterSchema.name (format_param param) = n.
Proof.
  intros E Hn. rewrite format_param_name_eq, E. simpl.
  destruct n; [contradiction | reflexivity].
Qed.

(** C6. Among the parameters extracted from a command there is none named
    config_env or config_file and none without a name; each of them is
    the normalization of a named [Option] of the command, and every named
    [Option] of the command other than the two reserved ones is there. *)
Theorem get_params_from_command_excludes (cli : Click.Command) :
  let names :=
    map SamCliParameterSchema.name (get_params_from_command cli) in
  ~ In "config_env" names /\
  ~ In "config_file" names /\
  ~ In "" names /\
  Forall
    (fun sp =>
       exists param,
         In param (Click.cmd_params cli) /\
         sp = format_param param /\
         Click.is_option param = true /\
         Click.name param = Some (SamCliParameterSchema.name sp))
    (get_params_from_command cli) /\
  (forall param n,
      In param (Click.cmd_params cli) ->
      Click.is_option param = true ->
      Click.name param = Some n ->
      n <> "" -> n <> "config_env" -> n <> "config_file" ->
      In (format_param param) (get_params_from_command cli)).
Proof.
  cbv zeta.
  assert (N : forall x,
             In x (map SamCliParameterSchema.name (get_params_from_command cli)) ->
             x <> "config_env" /\ x <> "config_file" /\ x <> "").
  { intros x Hx. apply in_map_iff in Hx as [sp [E Hsp]].
    apply get_params_from_command_In in Hsp as [param [_ [K Ef]]].
    apply keep_param_spec in K as [_ [n [En [Hne [H1 H2]]]]].
    subst sp. rewrite (kept_name param n En Hne) in E. subst x. auto. }
  split; [|split; [|split; [|split]]].
  - intros H. now apply N in H as [H _].
  - intros H. now apply N in H as [_ [H _]].
  - intros H. now apply N in H as [_ [_ H]].
  - apply Forall_forall. intros sp Hsp.
    apply get_params_from_command_In in Hsp as [param [Hin [K Ef]]].
    apply keep_param_spec in K as [Ho [n [En [Hne _]]]].
    exists param. subst sp. rewrite (kept_name param n En Hne). auto.
  - intros param n Hin Ho En Hne H1 H2.
    apply get_params_from_command_In. exists param.
    repeat split; auto. apply keep_param_spec. eauto 10.
Qed.

Lemma get_params_from_command_excludes_witness :
  get_params_from_command
    (Example.leaf "cmd" ""
       [Example.opt "config_env" Example.text "" VNone;
        Example.argument "template";
        Example.bar;
        Example.opt "config_file" Example.text "" VNone;
        Example.opt "" Example.text "" VNone])
  = [format_param Example.bar] /\
  In (format_param Example.bar)
    (get_params_from_command
       (Example.leaf "cmd" ""
          [Example.opt "config_env" Example.text "" VNone;
           Example.argument "template";
           Example.bar;
           Example.opt "config_file" Example.text "" VNone;
           Example.opt "" Example.text "" VNone])).
Proof.
  split; [reflexivity|].
  refine (proj2 (proj2 (proj2 (proj2
            (get_params_from_command_excludes _)))) Example.bar "bar" _ _ _ _ _ _).
  - simpl. auto.
  - reflexivity.
  - reflexivity.
  - discriminate.
  - discriminate.
  - discriminate.
Defined.

End Extraction.

(* ================================================================= *)
(** ** The schema fragment of a command *)

Module Fragment.
Import PyVal Schema Spec Normalizer DictFacts.

Lemma to_schema_properties (cmd : SamCliCommandSchema.t) :
  at_path (parameters_path cmd "properties")
          (VDict (SamCliCommandSchema.to_schema cmd)) =
  Some (VDict (if negb (SamCliCommandSchema.exclude_params cmd)
               then SamCliCommandSchema.params_properties
                      (SamCliCommandSchema.parameters cmd)
               else [])).
Proof.
  unfold parameters_path, SamCliCommandSchema.to_schema. simpl.
  rewrite String.eqb_refl. reflexivity.
Qed.

Lemma to_schema_description (cmd : SamCliCommandSchema.t) :
  at_path (parameters_path cmd "description")
          (VDict (SamCliCommandSchema.to_schema cmd)) =
  Some (VStr (SamCliCommandSchema.params_description cmd)).
Proof.
  unfold parameters_path, SamCliCommandSchema.to_schema. simpl.
  rewrite String.eqb_refl. reflexivity.
Qed.

Lemma params_properties_put (params : list SamCliParameterSchema.t) :
  SamCliCommandSchema.params_properties params =
  put SamCliParameterSchema.name param_entry params [].
Proof. reflexivity. Qed.

(** C5, as the code has it. When the first segment of a command's name is
    in the exclusion set, its fragment has an empty
    properties.parameters.properties and a parameters description that
    stops after the heading line, whatever parameters it declares.
    Otherwise properties.parameters.properties has one entry per
    distinct parameter name, which holds the fragment of the last
    parameter of that name; when the names are pairwise distinct this is
    one entry per parameter, in declaration order. *)
Theorem command_to_schema_parameters (cmd : SamCliCommandSchema.t) :
  let top := PyStr.first (PyStr.split "_" (SamCliCommandSchema.name cmd)) in
  let params := SamCliCommandSchema.parameters cmd in
  let fragment := VDict (SamCliCommandSchema.to_schema cmd) in
  (In top SamCliCommandSchema.COMMANDS_TO_EXCLUDE ->
   at_path (parameters_path cmd "properties") fragment = Some (VDict []) /\
   at_path (parameters_path cmd "description") fragment =
   Some (VStr ("Available parameters for the "
               ++ PyStr.join " " (PyStr.split "_" (SamCliCommandSchema.name cmd))
               ++ " command:" ++ nl))) /\
  (~ In top SamCliCommandSchema.COMMANDS_TO_EXCLUDE ->
   exists props,
     at_path (parameters_path cmd "properties") fragment = Some (VDict props) /\
     NoDup (dict_keys props) /\
     (forall n, In n (dict_keys props) <->
                In n (map SamCliParameterSchema.name params)) /\
     (forall n,
         dict_get n props =
         option_map param_entry
           (find (fun param => String.eqb (SamCliParameterSchema.name param) n)
                 (rev params))) /\
     (NoDup (map SamCliParameterSchema.name params) ->
      props = map (fun param => (SamCliParameterSchema.name param,
                                 param_entry param)) params)).
Proof.
  cbv zeta. split.
  - intros H. apply in_list_In in H.
    rewrite to_schema_properties, to_schema_description.
    unfold SamCliCommandSchema.params_description,
      SamCliCommandSchema.formatted_params_list,
      SamCliCommandSchema.exclude_params,
      SamCliCommandSchema.formatted_cmd_name,
      SamCliCommandSchema.split_cmd_name.
    rewrite H. split; reflexivity.
  - intros H. apply in_list_not_In in H.
    rewrite to_schema_properties.
    unfold SamCliCommandSchema.exclude_params,
      SamCliCommandSchema.split_cmd_name.
    rewrite H. simpl negb. cbv iota.
    rewrite params_properties_put.
    eexists. split; [reflexivity|]. split; [|split; [|split]].
    + apply put_NoDup. constructor.
    + intros n. rewrite dict_keys_put. simpl. tauto.
    + intros n. rewrite dict_get_put.
      destruct (find _ _); reflexivity.
    + intros Hn. rewrite put_fresh; [reflexivity | exact Hn | auto].
Qed.

Lemma command_to_schema_parameters_witness :
  at_path ["deploy"; "properties"; "parameters"; "properties"]
    (VDict (SamCliCommandSchema.to_schema
              {| SamCliCommandSchema.name := "deploy";
                 SamCliCommandSchema.description := "";
                 SamCliCommandSchema.parameters :=
                   [format_param Example.bar] |}))
  = Some (VDict []).
Proof.
  refine (proj1 (proj1 (command_to_schema_parameters
                          {| SamCliCommandSchema.name := "deploy";
                             SamCliCommandSchema.description := "";
                             SamCliCommandSchema.parameters :=
                               [format_param Example.bar] |}) _)).
  simpl. auto.
Defined.

(** C5 as stated fails: a command outside the exclusion set with two
    parameters of one name has a properties.parameters.properties of one
    entry, not two. *)
Lemma command_to_schema_one_entry_for_two :
  ~ In (PyStr.first
          (PyStr.split "_" (SamCliCommandSchema.name Example.two_named_bar)))
       SamCliCommandSchema.COMMANDS_TO_EXCLUDE /\
  length (SamCliCommandSchema.parameters Example.two_named_bar) = 2 /\
  at_path ["foo"; "properties"; "parameters"; "properties"]
    (VDict (SamCliCommandSchema.to_schema Example.two_named_bar))
  = Some (VDict [("bar", VDict [("title", VStr "bar");
                                ("type", VStr "string");
                                ("description", VStr "lower")])]).
Proof.
  split; [|split; reflexivity].
  cbv. intuition discriminate.
Qed.

End Fragment.

(* ================================================================= *)
(** ** The command extractor and the schema assembler *)

Module Assembly.
Import PyVal Schema Spec DictFacts.

Lemma fold_append {A B : Type} (f : A -> B) (l : list A) (acc : list B) :
  fold_left (fun acc x => (acc ++ [f x])%list) l acc = (acc ++ map f l)%list.
Proof.
  revert acc. induction l as [|x l IH]; intros acc; simpl.
  - now rewrite app_nil_r.
  - now rewrite IH, <- app_assoc.
Qed.

Section WithRegistry.
Variable to_key : list string -> string.
Variable import_module : string -> option Click.PyModule.

Local Abbreviation retrieve :=
  (retrieve_command_structure to_key import_module).

Lemma retrieve_leaf (package_name : string) (module : Click.PyModule)
  (cli : Click.Command) :
  import_module package_name = Some module ->
  Click.mod_cli module = Some cli ->
  Click.cmd_commands cli = None ->
  retrieve package_name =
  Ok [ {| SamCliCommandSchema.name := to_key [short_name module];
          SamCliCommandSchema.description := describe cli;
          SamCliCommandSchema.parameters := get_params_from_command cli |} ].
Proof.
  intros Hm Hc Hl. unfold retrieve_command_structure, do_import, get_cli.
  rewrite Hm. simpl. rewrite Hc. simpl. now rewrite Hl.
Qed.

Lemma retrieve_group (package_name : string) (module : Click.PyModule)
  (cli : Click.Command) (commands : list (string * Click.Command)) :
  import_module package_name = Some module ->
  Click.mod_cli module = Some cli ->
  Click.cmd_commands cli = Some commands ->
  retrieve package_name =
  Ok (map (fun subcommand =>
             {| SamCliCommandSchema.name :=
                  to_key [short_name module;
                          Click.str_of (Click.cmd_name subcommand)];
                SamCliCommandSchema.description := describe subcommand;
                SamCliCommandSchema.parameters :=
                  get_params_from_command subcommand |})
          (Click.values commands)).
Proof.
  intros Hm Hc Hg. unfold retrieve_command_structure, do_import, get_cli.
  rewrite Hm. simpl. rewrite Hc. simpl. rewrite Hg.
  now rewrite fold_append.
Qed.

Lemma retrieve_total (package_name : string) :
  (exists module cli,
      import_module package_name = Some module /\
      Click.mod_cli module = Some cli) ->
  exists found, retrieve package_name = Ok found.
Proof.
  intros [module [cli [Hm Hc]]].
  destruct (Click.cmd_commands cli) as [commands|] eqn:E.
  - eexists. now apply (retrieve_group _ module cli commands).
  - eexists. now apply (retrieve_leaf _ module cli).
Qed.

Lemma extend_all_total (packages : list string) :
  (forall package_name, In package_name packages ->
     exists module cli,
       import_module package_name = Some module /\
       Click.mod_cli module = Some cli) ->
  forall commands,
  exists all, extend_all to_key import_module packages commands = Ok all.
Proof.
  induction packages as [|package_name rest IH]; intros H commands; simpl.
  - eexists. reflexivity.
  - destruct (retrieve_total package_name) as [found E]; [apply H; simpl; auto|].
    rewrite E. simpl. apply IH. intros q Hq. apply H. simpl. auto.
Qed.

(** C3. For a package that resolves to a module with a [cli]: when the
    [cli] is not a group, the extractor returns one command schema, named
    by the Key-Joiner applied to the package's short name alone, which is
    the short name itself wherever the Key-Joiner leaves that single
    segment as it is; when the [cli] is a group with N sub-commands, it
    returns N command schemas, the i-th named by joining the short name
    and the name of the i-th sub-command with the Key-Joiner. *)
Theorem retrieve_command_structure_names (package_name : string)
  (module : Click.PyModule) (cli : Click.Command) :
  import_module package_name = Some module ->
  Click.mod_cli module = Some cli ->
  (Click.is_group cli = false ->
   exists command,
     retrieve package_name = Ok [command] /\
     SamCliCommandSchema.name command = to_key [short_name module] /\
     (to_key [short_name module] = short_name module ->
      SamCliCommandSchema.name command = short_name module) /\
     SamCliCommandSchema.description command = describe cli /\
     SamCliCommandSchema.parameters command = get_params_from_command cli) /\
  (forall commands,
      Click.cmd_commands cli = Some commands ->
      exists found,
        retrieve package_name = Ok found /\
        length found = length commands /\
        map SamCliCommandSchema.name found =
        map (fun subcommand =>
               to_key [short_name module;
                       Click.str_of (Click.cmd_name subcommand)])
            (Click.values commands) /\
        (forall i subcommand n,
            nth_error (Click.values commands) i = Some subcommand ->
            Click.cmd_name subcommand = Some n ->
            option_map SamCliCommandSchema.name (nth_error found i) =
            Some (to_key [short_name module; n]))).
Proof.
  intros Hm Hc. split.
  - intros Hl. unfold Click.is_group in Hl.
    destruct (Click.cmd_commands cli) eqn:E; [discriminate|].
    eexists. split; [now apply (retrieve_leaf _ module cli)|].
    simpl. auto.
  - intros commands Hg. eexists.
    split; [now apply (retrieve_group _ module cli commands)|].
    split; [|split].
    + unfold Click.values. now rewrite !length_map.
    + rewrite map_map. reflexivity.
    + intros i subcommand n Hi Hn.
      rewrite nth_error_map, Hi. simpl. now rewrite Hn.
Qed.

Variable SAM_CLI_COMMAND_PACKAGES : list string.

Local Abbreviation generate :=
  (generate_schema to_key import_module SAM_CLI_COMMAND_PACKAGES).

Local Abbreviation accumulate :=
  (extend_all to_key import_module SAM_CLI_COMMAND_PACKAGES []).

Lemma generate_schema_eq (commands : list SamCliCommandSchema.t) :
  accumulate = Ok commands ->
  generate =
  Ok (fold_left
        (fun schema command =>
           update_environment schema (SamCliCommandSchema.to_schema command))
        commands
        (dict_set "patternProperties" environment_wrapper schema_header)).
Proof. intros E. unfold generate_schema. now rewrite E. Qed.

Lemma generate_schema_inv (schema : dict) :
  generate = Ok schema ->
  exists commands,
    accumulate = Ok commands /\
    schema =
    fold_left
      (fun schema command =>
         update_environment schema (SamCliCommandSchema.to_schema command))
      commands
      (dict_set "patternProperties" environment_wrapper schema_header).
Proof.
  unfold generate_schema. destruct accumulate as [e|commands]; simpl.
  - discriminate.
  - intros H. inversion H. eauto.
Qed.

Lemma update_environment_other (k : string) (schema fragment : dict) :
  k <> "patternProperties" ->
  dict_get k (update_environment schema fragment) = dict_get k schema.
Proof.
  intros H. unfold update_environment. rewrite dict_get_alter.
  apply String.eqb_neq in H. now rewrite H.
Qed.

Lemma fold_update_environment_other (k : string)
  (commands : list SamCliCommandSchema.t) (schema : dict) :
  k <> "patternProperties" ->
  dict_get k
    (fold_left
       (fun schema command =>
          update_environment schema (SamCliCommandSchema.to_schema command))
       commands schema) = dict_get k schema.
Proof.
  intros H. revert schema.
  induction commands as [|c commands IH]; intros schema; simpl; [reflexivity|].
  rewrite IH. now apply update_environment_other.
Qed.

Lemma update_environment_properties (schema props fragment : dict) :
  at_path environment_path (VDict schema) = Some (VDict props) ->
  at_path environment_path (VDict (update_environment schema fragment)) =
  Some (VDict (dict_update props fragment)).
Proof.
  unfold environment_path, update_environment. cbn [at_path].
  intros H. rewrite dict_get_alter, String.eqb_refl.
  destruct (dict_get "patternProperties" schema) as [[| | | | | | |pp]|];
    try discriminate.
  rewrite dict_get_alter, String.eqb_refl.
  destruct (dict_get SchemaKeys.ENVIRONMENT_REGEX pp) as [[| | | | | | |env]|];
    try discriminate.
  rewrite dict_get_alter, String.eqb_refl.
  destruct (dict_get "properties" env) as [[| | | | | | |old]|];
    try discriminate.
  inversion H. reflexivity.
Qed.

Lemma fold_update_environment_properties
  (commands : list SamCliCommandSchema.t) (schema props : dict) :
  at_path environment_path (VDict schema) = Some (VDict props) ->
  at_path environment_path
    (VDict
       (fold_left
          (fun schema command =>
             update_environment schema (SamCliCommandSchema.to_schema command))
          commands schema)) =
  Some (VDict (put SamCliCommandSchema.name SamCliCommandSchema.command_entry
                   commands props)).
Proof.
  revert schema props.
  induction commands as [|c commands IH]; intros schema props H; simpl.
  - exact H.
  - apply IH.
    exact (update_environment_properties
             schema props (SamCliCommandSchema.to_schema c) H).
Qed.

(** C1. Whatever packages are registered, a document that
    [generate_schema] returns has the fixed root keys: properties holds
    version, an object of type "number" and default 0.1; required is
    ["version"]; additionalProperties is false; $schema is the draft-04
    URI; type is "object". And [generate_schema] returns a document
    whenever every registered package resolves to a module with a [cli]. *)
Theorem generate_schema_root_keys :
  (forall schema,
      generate = Ok schema ->
      dict_get "properties" schema =
      Some (VDict [("version",
                    VDict [("title", VStr "Config version");
                           ("type", VStr "number");
                           ("default", VFloat float_0_1)])]) /\
      at_path ["properties"; "version"; "type"] (VDict schema) =
      Some (VStr "number") /\
      at_path ["properties"; "version"; "default"] (VDict schema) =
      Some (VFloat float_0_1) /\
      dict_get "required" schema = Some (VList [VStr "version"]) /\
      dict_get "additionalProperties" schema = Some (VBool false) /\
      dict_get "$schema" schema =
      Some (VStr "http://json-schema.org/draft-04/schema") /\
      dict_get "type" schema = Some (VStr "object")) /\
  ((forall package_name,
       In package_name SAM_CLI_COMMAND_PACKAGES ->
       exists module cli,
         import_module package_name = Some module /\
         Click.mod_cli module = Some cli) ->
   exists schema, generate = Ok schema).
Proof.
  split.
  - intros schema H. apply generate_schema_inv in H as [commands [_ E]].
    assert (P : dict_get "properties" schema =
                Some (VDict [("version",
                              VDict [("title", VStr "Config version");
                                     ("type", VStr "number");
                                     ("default", VFloat float_0_1)])])).
    { subst schema. rewrite fold_update_environment_other by discriminate.
      reflexivity. }
    cbn [at_path]. rewrite P.
    subst schema. rewrite !fold_update_environment_other by discriminate.
    repeat split.
  - intros H. destruct (extend_all_total _ H []) as [commands E].
    eexists. exact (generate_schema_eq commands E).
Qed.

(** C7. Duplicate command names raise nothing: once the commands are
    accumulated, [generate_schema] returns a document, and under each
    name the environment wrapper's properties hold the fragment of the
    last accumulated command of that name; every name is there once. *)
Theorem generate_schema_last_writer_wins
  (commands : list SamCliCommandSchema.t) :
  accumulate = Ok commands ->
  exists schema props,
    generate = Ok schema /\
    at_path environment_path (VDict schema) = Some (VDict props) /\
    (forall earlier command later,
        commands = (earlier ++ command :: later)%list ->
        (forall other, In other later ->
           SamCliCommandSchema.name other <> SamCliCommandSchema.name command) ->
        dict_get (SamCliCommandSchema.name command) props =
        Some (SamCliCommandSchema.command_entry command)) /\
    NoDup (dict_keys props) /\
    (forall n, In n (dict_keys props) <->
               In n (map SamCliCommandSchema.name commands)).
Proof.
  intros E. eexists. eexists.
  split; [exact (generate_schema_eq commands E)|].
  split; [now apply fold_update_environment_properties|].
  split; [|split].
  - intros earlier command later Hc Hl.
    now apply (dict_get_put_last _ _ _ commands earlier later).
  - apply put_NoDup. constructor.
  - intros n. rewrite dict_keys_put. simpl. tauto.
Qed.

End WithRegistry.

Lemma retrieve_command_structure_names_witness :
  (exists command,
      retrieve_command_structure Example.to_key Example.import_module
        "pkg.commands.foo" = Ok [command] /\
      SamCliCommandSchema.name command = "foo") /\
  (exists found,
      retrieve_command_structure Example.to_key Example.import_module
        "pkg.commands.grp" = Ok found /\
      length found = 2 /\
      map SamCliCommandSchema.name found = ["grp_a"; "grp_b"]).
Proof.
  split.
  - destruct (proj1 (retrieve_command_structure_names
                       Example.to_key Example.import_module "pkg.commands.foo"
                       {| Click.mod_name := "pkg.commands.foo";
                          Click.mod_cli := Some Example.foo |}
                       Example.foo eq_refl eq_refl) eq_refl)
      as [command [E [_ [N _]]]].
    exists command. split; [exact E | exact (N eq_refl)].
  - destruct (proj2 (retrieve_command_structure_names
                       Example.to_key Example.import_module "pkg.commands.grp"
                       {| Click.mod_name := "pkg.commands.grp";
                          Click.mod_cli := Some Example.grp |}
                       Example.grp eq_refl eq_refl) _ eq_refl)
      as [found [E [L [M _]]]].
    exists found. split; [exact E | split; [exact L | exact M]].
Defined.

Lemma example_packages_resolve (package_name : string) :
  In package_name Example.packages ->
  exists module cli,
    Example.import_module package_name = Some module /\
    Click.mod_cli module = Some cli.
Proof.
  intros [E|[E|[]]]; subst package_name;
    eexists; eexists; split; reflexivity.
Defined.

Lemma generate_schema_root_keys_witness :
  exists schema,
    generate_schema Example.to_key Example.import_module Example.packages
    = Ok schema /\
    dict_get "required" schema = Some (VList [VStr "version"]) /\
    at_path ["properties"; "version"; "default"] (VDict schema) =
    Some (VFloat float_0_1).
Proof.
  destruct (proj2 (generate_schema_root_keys
                     Example.to_key Example.import_module Example.packages)
                  example_packages_resolve) as [schema E].
  exists schema. split; [exact E|].
  destruct (proj1 (generate_schema_root_keys
                     Example.to_key Example.import_module Example.packages)
                  schema E) as [_ [_ [D [R _]]]].
  split; [exact R | exact D].
Defined.

Lemma generate_schema_last_writer_wins_witness :
  exists schema props,
    generate_schema Example.to_key Example.import_module ["pkg.commands.dup"]
    = Ok schema /\
    at_path environment_path (VDict schema) = Some (VDict props) /\
    dict_get "dup_same" props =
    Some (SamCliCommandSchema.command_entry
            {| SamCliCommandSchema.name := "dup_same";
               SamCliCommandSchema.description := "Later";
               SamCliCommandSchema.parameters := [] |}).
Proof.
  destruct (generate_schema_last_writer_wins
              Example.to_key Example.import_module ["pkg.commands.dup"]
              _ eq_refl) as [schema [props [E [P [W _]]]]].
  exists schema, props. split; [exact E | split; [exact P|]].
  exact (W [ {| SamCliCommandSchema.name := "dup_same";
                SamCliCommandSchema.description := "Earlier";
                SamCliCommandSchema.parameters :=
                  [format_param Example.bar] |} ]
           {| SamCliCommandSchema.name := "dup_same";
              SamCliCommandSchema.description := "Later";
              SamCliCommandSchema.parameters := [] |}
           [] eq_refl (fun other H => match H with end)).
Defined.

End Assembly.

(* ================================================================= *)
(** * Further properties of schema.py *)

(** ** More on [clean_text] and the descriptions it produces *)

Module Descriptions.
Import PyStr PyStrFacts Schema Spec CleanText.

Lemma length_app_s (a b : string) :
  String.length (a ++ b) = String.length a + String.length b.
Proof. induction a as [|c a IH]; simpl; [reflexivity | now rewrite IH]. Qed.

Lemma replace_length (old : ascii) (s : string) :
  String.length (replace old "" s) <= String.length s.
Proof.
  induction s as [|c s IH]; simpl; [lia|].
  destruct (Ascii.eqb c old); simpl; lia.
Qed.

Lemma strip_length (chars : option string) (s : string) :
  String.length (strip chars s) <= String.length s.
Proof.
  unfold strip.
  destruct (lstrip_by_split (strip_set chars) s) as [pre [E1 _]].
  destruct (rstrip_by_split (strip_set chars) (lstrip_by (strip_set chars) s))
    as [suf [E2 _]].
  rewrite E1 at 2. rewrite E2 at 2. rewrite !length_app_s. lia.
Qed.

(** Stripping newlines before stripping whitespace changes nothing. *)
Lemma strip_newlines_absorbed (s : string) :
  strip None (strip (Some nl) s) = strip None s.
Proof.
  destruct (strip_by_stripped (strip_set (Some nl)) s)
    as [pre [suf [E [Hpre [Hsuf _]]]]].
  destruct (strip_by_stripped chr_isspace
              (rstrip_by (strip_set (Some nl)) (lstrip_by (strip_set (Some nl)) s)))
    as [pre2 [suf2 [E2 [Hpre2 [Hsuf2 [Hh Hl]]]]]].
  fold (strip (Some nl) s) in *.
  change (rstrip_by chr_isspace (lstrip_by chr_isspace (strip (Some nl) s)))
    with (strip None (strip (Some nl) s)) in *.
  apply (stripped_unique chr_isspace).
  exists (pre ++ pre2), (suf2 ++ suf). repeat split; auto.
  - rewrite E at 1. rewrite E2 at 1. now rewrite !append_assoc.
  - rewrite all_chars_app, Hpre2, andb_true_r.
    clear - Hpre. induction pre as [|c pre IH]; [reflexivity|].
    simpl in *. apply andb_prop in Hpre as [Hc Hp].
    now rewrite (newline_isspace c Hc), IH.
  - rewrite all_chars_app, Hsuf2. simpl.
    clear - Hsuf. induction suf as [|c suf IH]; [reflexivity|].
    simpl in *. apply andb_prop in Hsuf as [Hc Hp].
    now rewrite (newline_isspace c Hc), IH.
Qed.

(** X1. [clean_text] is one whitespace strip of the text without its
    backspaces: the separate strip of newlines never changes the result. *)
Theorem clean_text_single_strip (t : string) :
  clean_text (Some t) = strip None (replace backspace "" t).
Proof.
  destruct t as [|c t]; [reflexivity|].
  rewrite clean_text_nonempty by discriminate.
  apply strip_newlines_absorbed.
Qed.

Lemma replace_all_space (s : string) :
  all_chars chr_isspace (replace backspace "" s) =
  all_chars blank_or_backspace s.
Proof.
  induction s as [|c s IH]; simpl; [reflexivity|].
  unfold blank_or_backspace at 1.
  destruct (Ascii.eqb c backspace) eqn:E; simpl.
  - rewrite IH. now rewrite orb_true_r.
  - rewrite IH. now rewrite orb_false_r.
Qed.

Lemma strip_by_empty (p : ascii -> bool) (s : string) :
  rstrip_by p (lstrip_by p s) = "" <-> all_chars p s = true.
Proof.
  rewrite rstrip_by_empty. split.
  - intros H. destruct (lstrip_by_split p s) as [pre [E Hpre]].
    rewrite E, all_chars_app, Hpre, H. reflexivity.
  - intros H. now apply lstrip_by_all_chars.
Qed.

(** X2. [clean_text] gives the empty string exactly for a text made of
    nothing but whitespace and backspaces (the empty text included). *)
Theorem clean_text_empty_iff (t : string) :
  clean_text (Some t) = "" <-> all_chars blank_or_backspace t = true.
Proof.
  rewrite clean_text_single_strip. unfold strip. simpl strip_set.
  now rewrite strip_by_empty, replace_all_space.
Qed.

Lemma format_param_description_eq (param : Click.Param) :
  SamCliParameterSchema.description (format_param param) =
  clean_text (Some (Click.opt_or (Click.help param) "")).
Proof.
  unfold format_param.
  destruct (PyVal.truthy (Click.default param));
    destruct (Click.type_choices (Click.type param));
    try destruct (String.eqb (Click.type_name (Click.type param)) "choice");
    reflexivity.
Qed.

(** X3. Every description the generator produces, of a parameter or of a
    command, contains no backspace, neither starts nor ends with a
    whitespace character, and is no longer than the help text it was
    made from. *)
Theorem descriptions_are_clean :
  (forall text : string,
      all_chars (differs backspace) (clean_text (Some text)) = true /\
      holds_at chr_isspace (head_char (clean_text (Some text))) = false /\
      holds_at chr_isspace (last_char (clean_text (Some text))) = false /\
      String.length (clean_text (Some text)) <= String.length text) /\
  (forall param : Click.Param,
      let d := SamCliParameterSchema.description (format_param param) in
      all_chars (differs backspace) d = true /\
      holds_at chr_isspace (head_char d) = false /\
      holds_at chr_isspace (last_char d) = false) /\
  (forall c : Click.Command,
      all_chars (differs backspace) (describe c) = true /\
      holds_at chr_isspace (head_char (describe c)) = false /\
      holds_at chr_isspace (last_char (describe c)) = false).
Proof.
  split; [|split].
  - intros text. destruct (clean_text_shape (Some text)) as [Hh [Hl Hb]].
    repeat split; auto.
    rewrite clean_text_single_strip.
    etransitivity; [apply strip_length | apply replace_length].
  - intros param. cbv zeta. rewrite format_param_description_eq.
    destruct (clean_text_shape (Some (Click.opt_or (Click.help param) "")))
      as [Hh [Hl Hb]]. auto.
  - intros c. unfold describe.
    destruct (clean_text_shape
                (Some (Click.opt_or (Click.cmd_help c)
                         (Click.opt_or (Click.cmd_short_help c) ""))))
      as [Hh [Hl Hb]]. auto.
Qed.

End Descriptions.

(* ================================================================= *)
(** ** More on the normalized parameter and its fragment *)

Module ParamFragment.
Import PyVal Schema Spec Normalizer.

(** X4. The fragment of a parameter lists its keys in a fixed order:
    title, type and description always, holding the parameter's name,
    type and description; then default when the default is truthy, items
    when items is a non-empty string, enum when choices is a non-empty
    list; and no other key. *)
Theorem param_to_schema_keys (sp : SamCliParameterSchema.t) :
  dict_keys (SamCliParameterSchema.to_schema sp) =
  (["title"; "type"; "description"]
   ++ when (truthy (SamCliParameterSchema.default sp)) "default"
   ++ when (Click.opt_truthy (SamCliParameterSchema.items sp)) "items"
   ++ when (match SamCliParameterSchema.choices sp with
            | Some (_ :: _) => true
            | _ => false
            end) "enum")%list /\
  dict_get "title" (SamCliParameterSchema.to_schema sp) =
  Some (VStr (SamCliParameterSchema.name sp)) /\
  dict_get "type" (SamCliParameterSchema.to_schema sp) =
  Some (VStr (SamCliParameterSchema.type sp)) /\
  dict_get "description" (SamCliParameterSchema.to_schema sp) =
  Some (VStr (SamCliParameterSchema.description sp)).
Proof.
  unfold SamCliParameterSchema.to_schema.
  destruct (truthy (SamCliParameterSchema.default sp));
    destruct (SamCliParameterSchema.items sp) as [[|i0 i]|];
    destruct (SamCliParameterSchema.choices sp) as [[|c cs]|];
    repeat split.
Qed.

Lemma to_schema_items (sp : SamCliParameterSchema.t) :
  dict_get "items" (SamCliParameterSchema.to_schema sp) =
  match SamCliParameterSchema.items sp with
  | Some i => if PyStr.truthy i then Some (VDict [("type", VStr i)]) else None
  | None => None
  end.
Proof.
  unfold SamCliParameterSchema.to_schema.
  destruct (truthy (SamCliParameterSchema.default sp));
    destruct (SamCliParameterSchema.items sp) as [[|i0 i]|];
    destruct (SamCliParameterSchema.choices sp) as [[|c cs]|];
    reflexivity.
Qed.

Lemma resolved_type_cases (param : Click.Param) :
  let low := PyStr.lower (Click.type_name (Click.type param)) in
  (PyStr.in_list low string_kinds = true /\
   SamCliParameterSchema.type (format_param param) = "string") \/
  (PyStr.in_list low string_kinds = false /\ low = "list" /\
   SamCliParameterSchema.type (format_param param) = "array") \/
  (PyStr.in_list low string_kinds = false /\ low <> "list" /\ low = "" /\
   SamCliParameterSchema.type (format_param param) = "string") \/
  (PyStr.in_list low string_kinds = false /\ low <> "list" /\ low <> "" /\
   SamCliParameterSchema.type (format_param param) = low).
Proof.
  cbv zeta. rewrite format_param_type_eq. cbv zeta.
  destruct (PyStr.in_list _ string_kinds) eqn:K; [auto|].
  destruct (String.eqb _ "list") eqn:L.
  - apply String.eqb_eq in L. auto.
  - apply String.eqb_neq in L.
    destruct (PyStr.lower (Click.type_name (Click.type param))) eqn:E.
    + right. right. left. auto.
    + right. right. right. repeat split; auto. discriminate.
Qed.

(** X5. The type of a normalized parameter is never the empty string. *)
Theorem format_param_type_nonempty (param : Click.Param) :
  SamCliParameterSchema.type (format_param param) <> "".
Proof.
  destruct (resolved_type_cases param)
    as [[_ E]|[[_ [_ E]]|[[_ [_ [_ E]]]|[_ [_ [N E]]]]]];
    rewrite E; try discriminate. exact N.
Qed.

Lemma chr_lower_idempotent (c : ascii) :
  PyStr.chr_lower (PyStr.chr_lower c) = PyStr.chr_lower c.
Proof.
  destruct c as [[] [] [] [] [] [] [] []]; vm_compute; reflexivity.
Qed.

Lemma lower_idempotent (s : string) :
  PyStr.lower (PyStr.lower s) = PyStr.lower s.
Proof.
  unfold PyStr.lower. induction s as [|c s IH]; simpl; [reflexivity|].
  now rewrite chr_lower_idempotent, IH.
Qed.

(** X6. Normalizing a type is idempotent: a descriptor whose declared type
    name is the normalized type of another descriptor is normalized to
    that same type. *)
Theorem format_param_type_idempotent (param again : Click.Param) :
  Click.type_name (Click.type again) =
  SamCliParameterSchema.type (format_param param) ->
  SamCliParameterSchema.type (format_param again) =
  SamCliParameterSchema.type (format_param param).
Proof.
  intros H. rewrite (format_param_type_eq again). cbv zeta. rewrite H.
  destruct (resolved_type_cases param)
    as [[_ E]|[[_ [_ E]]|[[_ [_ [_ E]]]|[K [L [N E]]]]]];
    rewrite E; try reflexivity.
  rewrite lower_idempotent, K.
  apply String.eqb_neq in L. rewrite L.
  unfold PyStr.or_else.
  destruct (PyStr.lower (Click.type_name (Click.type param)));
    [contradiction | reflexivity].
Qed.

Lemma format_param_type_idempotent_witness :
  SamCliParameterSchema.type
    (format_param (Example.opt "y" (Example.named "decimal") "" VNone)) =
  SamCliParameterSchema.type
    (format_param (Example.opt "x" (Example.named "Decimal") "" VNone)).
Proof.
  apply (format_param_type_idempotent
           (Example.opt "x" (Example.named "Decimal") "" VNone)
           (Example.opt "y" (Example.named "decimal") "" VNone)).
  reflexivity.
Defined.

(** X7. In the fragment of a normalized parameter a default, when there is
    one, is truthy and is not a tuple; items is there exactly for the
    type "array" and is then the object of type "string"; an enum comes
    only with the type "string", so never together with items. *)
Theorem format_param_fragment_consistent (param : Click.Param) :
  let fragment := SamCliParameterSchema.to_schema (format_param param) in
  let type := SamCliParameterSchema.type (format_param param) in
  (forall d, dict_get "default" fragment = Some d ->
             truthy d = true /\ forall elems, d <> VTuple elems) /\
  dict_get "items" fragment =
  (if String.eqb type "array"
   then Some (VDict [("type", VStr "string")]) else None) /\
  (dict_get "enum" fragment <> None ->
   type = "string" /\ dict_get "items" fragment = None).
Proof.
  cbv zeta.
  assert (I : dict_get "items"
                (SamCliParameterSchema.to_schema (format_param param)) =
              if String.eqb (SamCliParameterSchema.type (format_param param))
                            "array"
              then Some (VDict [("type", VStr "string")]) else None).
  { rewrite to_schema_items, format_param_items_eq.
    destruct (String.eqb _ "array"); reflexivity. }
  split; [|split].
  - intros d. rewrite to_schema_default, format_param_default_eq.
    destruct (truthy (Click.default param)) eqn:T; [|discriminate].
    rewrite truthy_tuple_as_list, T. intros H. inversion H; subst d.
    split; [now rewrite truthy_tuple_as_list|].
    intros elems. destruct (Click.default param); discriminate.
  - exact I.
  - rewrite to_schema_enum, format_param_choices_eq. intros H.
    assert (T : SamCliParameterSchema.type (format_param param) = "string").
    { rewrite format_param_type_eq. cbv zeta.
      destruct (Click.type_choices (Click.type param)) as [cs|];
        [|contradiction].
      destruct (String.eqb (Click.type_name (Click.type param)) "choice") eqn:E;
        [|contradiction].
      apply String.eqb_eq in E. rewrite E. reflexivity. }
    split; [exact T|]. rewrite I, T. reflexivity.
Qed.

Lemma format_param_fragment_consistent_witness :
  SamCliParameterSchema.type
    (format_param (Example.opt "x" (Example.choice ["a"; "b"]) "" VNone))
  = "string" /\
  dict_get "items"
    (SamCliParameterSchema.to_schema
       (format_param (Example.opt "x" (Example.choice ["a"; "b"]) "" VNone)))
  = None.
Proof.
  refine (proj2 (proj2 (format_param_fragment_consistent
                          (Example.opt "x" (Example.choice ["a"; "b"]) "" VNone)))
                _).
  discriminate.
Defined.

End ParamFragment.

(* ================================================================= *)
(** ** More on the fragment of a command *)

Module CommandFragment.
Import PyVal PyStr PyStrFacts Schema Spec Normalizer.

Lemma split_cons (c : ascii) (s : string) :
  exists w ws, split c s = w :: ws.
Proof.
  destruct s as [|x s]; simpl; [eauto|].
  destruct (Ascii.eqb x c); [eauto|].
  destruct (split c s); eauto.
Qed.

Lemma join_push (sep : string) (d : ascii) (w : string) (ws : list string) :
  join sep (String d w :: ws) = String d (join sep (w :: ws)).
Proof. destruct ws; reflexivity. Qed.

(** Splitting at a character and joining with another replaces the one
    by the other. *)
Lemma join_split_replace (c d : ascii) (s : string) :
  join (String d "") (split c s) = replace c (String d "") s.
Proof.
  induction s as [|x s IH]; [reflexivity|].
  simpl split. simpl replace.
  destruct (split_cons c s) as [w [ws E]]. rewrite E in *.
  destruct (Ascii.eqb x c).
  - rewrite <- IH. reflexivity.
  - rewrite join_push, IH. reflexivity.
Qed.

Lemma replace_char_length (c d : ascii) (s : string) :
  String.length (replace c (String d "") s) = String.length s.
Proof.
  induction s as [|x s IH]; simpl; [reflexivity|].
  destruct (Ascii.eqb x c); simpl; now rewrite IH.
Qed.

Lemma first_split_whole (c : ascii) (t : string) :
  all_chars (differs c) t = true -> split c t = [t].
Proof.
  induction t as [|x t IH]; simpl; intros H; [reflexivity|].
  apply andb_prop in H as [Hx Ht]. unfold differs in Hx.
  apply negb_true_iff in Hx. rewrite Hx, (IH Ht). reflexivity.
Qed.

Lemma first_split_prefix (c : ascii) (t rest : string) :
  all_chars (differs c) t = true ->
  first (split c (t ++ String c rest)) = t.
Proof.
  induction t as [|x t IH]; simpl; intros H.
  - now rewrite Ascii.eqb_refl.
  - apply andb_prop in H as [Hx Ht]. unfold differs in Hx.
    apply negb_true_iff in Hx. rewrite Hx.
    specialize (IH Ht).
    destruct (split_cons c (t ++ String c rest)) as [w [ws E]].
    rewrite E in *. simpl in *. now rewrite IH.
Qed.

Lemma first_split_decomp (c : ascii) (s : string) :
  s = first (split c s) \/
  exists rest, s = first (split c s) ++ String c rest.
Proof.
  induction s as [|x s IH]; simpl; [auto|].
  destruct (Ascii.eqb x c) eqn:E.
  - apply Ascii.eqb_eq in E. subst x. right. exists s. reflexivity.
  - destruct (split_cons c s) as [w [ws Es]]. rewrite Es in *. simpl in *.
    destruct IH as [IH|[rest IH]].
    + left. now rewrite <- IH.
    + right. exists rest. now rewrite <- IH.
Qed.

Lemma excluded_names_plain (top : string) :
  In top SamCliCommandSchema.COMMANDS_TO_EXCLUDE ->
  all_chars (differs "_"%char) top = true.
Proof.
  unfold SamCliCommandSchema.COMMANDS_TO_EXCLUDE. simpl.
  intros H. repeat (destruct H as [<-|H]; [reflexivity|]). contradiction.
Qed.

(** X8. A command gets the stub fragment exactly when its name is one of
    the excluded top-level names, or begins with one of them followed by
    an underscore. *)
Theorem exclude_params_iff (cmd : SamCliCommandSchema.t) :
  SamCliCommandSchema.exclude_params cmd = true <->
  exists top,
    In top SamCliCommandSchema.COMMANDS_TO_EXCLUDE /\
    (SamCliCommandSchema.name cmd = top \/
     exists rest, SamCliCommandSchema.name cmd = top ++ "_" ++ rest).
Proof.
  unfold SamCliCommandSchema.exclude_params, SamCliCommandSchema.split_cmd_name.
  rewrite in_list_In. split.
  - intros H. eexists. split; [exact H|].
    destruct (first_split_decomp "_"%char (SamCliCommandSchema.name cmd))
      as [E|[rest E]]; [left | right; exists rest]; exact E.
  - intros [top [Hin [E|[rest E]]]]; rewrite E.
    + rewrite first_split_whole by now apply excluded_names_plain.
      exact Hin.
    + change (top ++ "_" ++ rest) with (top ++ String "_" rest).
      rewrite first_split_prefix by now apply excluded_names_plain.
      exact Hin.
Qed.

(** X9. The readable command name used in the titles is the command's
    name with every underscore replaced by a space, so it has the
    name's length; the fragment of a command has the command's name as
    its single key, and under it the keys title, description,
    properties and required, where description is the command's
    description unchanged and required is ["parameters"]; for a name
    without U+00B5 and U+00FF the title is the title-cased readable
    name followed by " command". *)
Theorem command_to_schema_shape (cmd : SamCliCommandSchema.t) :
  SamCliCommandSchema.formatted_cmd_name cmd =
  replace "_" " " (SamCliCommandSchema.name cmd) /\
  String.length (SamCliCommandSchema.formatted_cmd_name cmd) =
  String.length (SamCliCommandSchema.name cmd) /\
  dict_keys (SamCliCommandSchema.to_schema cmd) =
  [SamCliCommandSchema.name cmd] /\
  (exists entry,
      SamCliCommandSchema.to_schema cmd =
      [(SamCliCommandSchema.name cmd, VDict entry)] /\
      dict_keys entry = ["title"; "description"; "properties"; "required"] /\
      (all_chars has_title (SamCliCommandSchema.name cmd) = true ->
       dict_get "title" entry =
       Some (VStr (title (replace "_" " " (SamCliCommandSchema.name cmd))
                   ++ " command"))) /\
      dict_get "description" entry =
      Some (VStr (SamCliCommandSchema.description cmd)) /\
      dict_get "required" entry = Some (VList [VStr "parameters"]) /\
      at_path ["properties"; "parameters"; "type"] (VDict entry) =
      Some (VStr "object") /\
      at_path ["properties"; "parameters"; "title"] (VDict entry) =
      Some (VStr ("Parameters for the "
                  ++ replace "_" " " (SamCliCommandSchema.name cmd)
                  ++ " command"))).
Proof.
  assert (F : SamCliCommandSchema.formatted_cmd_name cmd =
              replace "_" " " (SamCliCommandSchema.name cmd)).
  { apply join_split_replace. }
  split; [exact F|]. split; [rewrite F; apply replace_char_length|].
  split; [reflexivity|].
  eexists. split; [reflexivity|]. rewrite <- F.
  repeat split.
  simpl. unfold or_else.
  destruct (SamCliCommandSchema.description cmd); reflexivity.
Qed.

Lemma command_to_schema_shape_witness :
  exists entry,
    SamCliCommandSchema.to_schema
      {| SamCliCommandSchema.name := "local_start_api";
         SamCliCommandSchema.description := "";
         SamCliCommandSchema.parameters := [] |} =
    [("local_start_api", VDict entry)] /\
    dict_get "title" entry = Some (VStr "Local Start Api command").
Proof.
  destruct (command_to_schema_shape
              {| SamCliCommandSchema.name := "local_start_api";
                 SamCliCommandSchema.description := "";
                 SamCliCommandSchema.parameters := [] |})
    as [_ [_ [_ [entry [E [_ [T _]]]]]]].
  exists entry. split; [exact E | exact (T eq_refl)].
Defined.

(** X10. For a command outside the exclusion set the parameters
    description lists every parameter in declaration order, one bullet
    each, a repeated name included; with no parameter at all it still
    ends in one empty bullet. *)
Theorem params_description_bullets (cmd : SamCliCommandSchema.t) :
  SamCliCommandSchema.exclude_params cmd = false ->
  SamCliCommandSchema.params_description cmd =
  "Available parameters for the "
  ++ replace "_" " " (SamCliCommandSchema.name cmd) ++ " command:" ++ nl
  ++ "* "
  ++ join (nl ++ "* ")
       (map (fun param =>
               SamCliParameterSchema.name param ++ ":" ++ nl ++
               SamCliParameterSchema.description param)
            (SamCliCommandSchema.parameters cmd)) /\
  (SamCliCommandSchema.parameters cmd = [] ->
   SamCliCommandSchema.params_description cmd =
   "Available parameters for the "
   ++ replace "_" " " (SamCliCommandSchema.name cmd) ++ " command:" ++ nl
   ++ "* ").
Proof.
  intros H.
  assert (F : SamCliCommandSchema.formatted_cmd_name cmd =
              replace "_" " " (SamCliCommandSchema.name cmd)).
  { apply join_split_replace. }
  unfold SamCliCommandSchema.params_description,
    SamCliCommandSchema.formatted_params_list.
  rewrite H, F. simpl negb. cbv iota. split; [reflexivity|].
  intros E. rewrite E. reflexivity.
Qed.

Lemma params_description_bullets_witness :
  SamCliCommandSchema.params_description
    {| SamCliCommandSchema.name := "grp_b";
       SamCliCommandSchema.description := "";
       SamCliCommandSchema.parameters := [] |} =
  "Available parameters for the grp b command:" ++ nl ++ "* ".
Proof.
  refine (proj2 (params_description_bullets
                   {| SamCliCommandSchema.name := "grp_b";
                      SamCliCommandSchema.description := "";
                      SamCliCommandSchema.parameters := [] |} _) _);
    reflexivity.
Defined.

End CommandFragment.

(* ================================================================= *)
(** ** More on the extractor and the assembler *)

Module Pipeline.
Import PyVal Schema Spec DictFacts Assembly.

Lemma at_path_app (p q : list string) (v : value) :
  at_path (p ++ q) v =
  match at_path p v with
  | Some w => at_path q w
  | None => None
  end.
Proof.
  revert v. induction p as [|k p IH]; intros v; simpl; [reflexivity|].
  destruct v; try reflexivity.
  destruct (dict_get k entries); [apply IH | reflexivity].
Qed.

Lemma dict_set_length (k : string) (v : value) (d : dict) :
  length (dict_set k v d) <= S (length d).
Proof.
  induction d as [|[k0 v0] d IH]; simpl; [lia|].
  destruct (String.eqb k k0); simpl; lia.
Qed.

Lemma put_length {A : Type} (key : A -> string) (val : A -> value)
  (xs : list A) (d : dict) :
  length (put key val xs d) <= length xs + length d.
Proof.
  revert d. induction xs as [|x xs IH]; intros d; simpl; [lia|].
  unfold put in *. simpl.
  specialize (IH (dict_set (key x) (val x) d)).
  pose proof (dict_set_length (key x) (val x) d). lia.
Qed.

Section WithRegistry.
Variable to_key : list string -> string.
Variable import_module : string -> option Click.PyModule.

Local Abbreviation retrieve :=
  (retrieve_command_structure to_key import_module).


Lemma extend_all_prefix (ok rest : list string)
  (results : list (list SamCliCommandSchema.t))
  (commands : list SamCliCommandSchema.t) :
  Forall2 (fun package_name found => retrieve package_name = Ok found)
          ok results ->
  extend_all to_key import_module (ok ++ rest) commands =
  extend_all to_key import_module rest (commands ++ concat results).
Proof.
  intros H. revert commands.
  induction H as [|p r ok results Hp _ IH]; intros commands; simpl.
  - now rewrite app_nil_r.
  - rewrite Hp. simpl. rewrite IH. now rewrite <- app_assoc.
Qed.



Variable SAM_CLI_COMMAND_PACKAGES : list string.

Local Abbreviation generate :=
  (generate_schema to_key import_module SAM_CLI_COMMAND_PACKAGES).

Local Abbreviation accumulate :=
  (extend_all to_key import_module SAM_CLI_COMMAND_PACKAGES []).


(** X12. When every registered package resolves, the accumulated
    commands are the results of the extractor for each package,
    concatenated in registry order. *)
Theorem extend_all_concat (results : list (list SamCliCommandSchema.t)) :
  Forall2 (fun package_name found => retrieve package_name = Ok found)
          SAM_CLI_COMMAND_PACKAGES results ->
  accumulate = Ok (concat results).
Proof.
  intros H.
  rewrite <- (app_nil_r SAM_CLI_COMMAND_PACKAGES).
  rewrite (extend_all_prefix _ _ results) by exact H.
  reflexivity.
Qed.

Lemma fold_update_environment_document
  (commands : list SamCliCommandSchema.t) (props : dict) :
  fold_left
    (fun schema command =>
       update_environment schema (SamCliCommandSchema.to_schema command))
    commands
    (schema_header ++
     [("patternProperties",
       VDict [(SchemaKeys.ENVIRONMENT_REGEX,
               VDict [("title", VStr "Environment");
                      ("properties", VDict props)])])])%list
  = (schema_header ++
     [("patternProperties",
       VDict [(SchemaKeys.ENVIRONMENT_REGEX,
               VDict [("title", VStr "Environment");
                      ("properties",
                       VDict (put SamCliCommandSchema.name
                                  SamCliCommandSchema.command_entry
                                  commands props))])])])%list.
Proof.
  revert props. induction commands as [|c commands IH]; intros props.
  - reflexivity.
  - cbn [fold_left].
    change (update_environment _ (SamCliCommandSchema.to_schema c))
      with (schema_header ++
            [("patternProperties",
              VDict [(SchemaKeys.ENVIRONMENT_REGEX,
                      VDict [("title", VStr "Environment");
                             ("properties",
                              VDict (dict_set
                                       (SamCliCommandSchema.name c)
                                       (SamCliCommandSchema.command_entry c)
                                       props))])])])%list.
    rewrite IH. reflexivity.
Qed.

(** X13. The document [generate_schema] returns is fully determined by
    the accumulated commands: its keys are, in this order, $schema,
    title, type, properties, required, additionalProperties and
    patternProperties; patternProperties has the single key "^.+$",
    whose value holds the title "Environment" and the properties built
    from the commands. *)
Theorem generate_schema_document (commands : list SamCliCommandSchema.t) :
  accumulate = Ok commands ->
  generate =
  Ok [("$schema", VStr "http://json-schema.org/draft-04/schema");
      ("title", VStr "AWS SAM CLI samconfig schema");
      ("type", VStr "object");
      ("properties",
       VDict [("version",
               VDict [("title", VStr "Config version");
                      ("type", VStr "number");
                      ("default", VFloat float_0_1)])]);
      ("required", VList [VStr "version"]);
      ("additionalProperties", VBool false);
      ("patternProperties",
       VDict [("^.+$",
               VDict [("title", VStr "Environment");
                      ("properties",
                       VDict (put SamCliCommandSchema.name
                                  SamCliCommandSchema.command_entry
                                  commands []))])])].
Proof.
  intros H. rewrite (generate_schema_eq _ _ _ commands H).
  f_equal. apply (fold_update_environment_document commands []).
Qed.

(** X14. The environment wrapper's properties never have more entries
    than there are accumulated commands, and none when there is no
    command; when the command names are pairwise distinct they have one
    entry per command, in accumulation order. *)
Theorem environment_properties_entries
  (commands : list SamCliCommandSchema.t) :
  accumulate = Ok commands ->
  exists schema props,
    generate = Ok schema /\
    at_path environment_path (VDict schema) = Some (VDict props) /\
    length props <= length commands /\
    (NoDup (map SamCliCommandSchema.name commands) ->
     props = map (fun command =>
                    (SamCliCommandSchema.name command,
                     SamCliCommandSchema.command_entry command)) commands).
Proof.
  intros H. eexists. eexists.
  split; [exact (generate_schema_document commands H)|].
  split; [reflexivity|]. split.
  - pose proof (put_length SamCliCommandSchema.name
                  SamCliCommandSchema.command_entry commands []) as L.
    simpl in L. lia.
  - intros Hn. rewrite put_fresh; [reflexivity | exact Hn | auto].
Qed.

(** X15. Looking a parameter up in the document: for an accumulated
    command outside the exclusion set that is the last of its name, and
    a parameter of it that is the last of its name, the document holds
    that parameter's fragment under
    patternProperties / "^.+$" / properties / command / properties /
    parameters / properties / parameter. *)
Theorem generate_schema_parameter_lookup
  (commands earlier later : list SamCliCommandSchema.t)
  (command : SamCliCommandSchema.t)
  (before after : list SamCliParameterSchema.t)
  (param : SamCliParameterSchema.t) :
  accumulate = Ok commands ->
  commands = (earlier ++ command :: later)%list ->
  (forall other, In other later ->
     SamCliCommandSchema.name other <> SamCliCommandSchema.name command) ->
  SamCliCommandSchema.exclude_params command = false ->
  SamCliCommandSchema.parameters command = (before ++ param :: after)%list ->
  (forall other, In other after ->
     SamCliParameterSchema.name other <> SamCliParameterSchema.name param) ->
  exists schema,
    generate = Ok schema /\
    at_path
      (environment_path ++ parameters_path command "properties"
       ++ [SamCliParameterSchema.name param])%list
      (VDict schema) =
    Some (VDict (SamCliParameterSchema.to_schema param)).
Proof.
  intros H Hc Hlater Hex Hp Hafter. eexists.
  split; [exact (generate_schema_document commands H)|].
  rewrite at_path_app.
  change (at_path environment_path _)
    with (Some (VDict (put SamCliCommandSchema.name
                           SamCliCommandSchema.command_entry commands []))).
  cbv iota. unfold parameters_path.
  cbn [app at_path].
  rewrite (dict_get_put_last _ SamCliCommandSchema.name
             SamCliCommandSchema.command_entry
             commands earlier later command [] Hc Hlater).
  unfold SamCliCommandSchema.command_entry. cbn [at_path dict_get String.eqb Ascii.eqb Bool.eqb].
  rewrite Hex. simpl negb. cbv iota.
  change (SamCliCommandSchema.params_properties
            (SamCliCommandSchema.parameters command))
    with (put SamCliParameterSchema.name param_entry
              (SamCliCommandSchema.parameters command) []).
  rewrite (dict_get_put_last _ SamCliParameterSchema.name param_entry
             (SamCliCommandSchema.parameters command) before after param []
             Hp Hafter).
  reflexivity.
Qed.

(** X16. For a group, each returned command schema takes its description
    and its parameters from the corresponding sub-command alone: the
    group's own help text and options, and whatever a sub-command nests
    below itself, leave no trace. *)
Theorem retrieve_group_entries (package_name : string)
  (module : Click.PyModule) (cli : Click.Command)
  (commands : list (string * Click.Command)) :
  import_module package_name = Some module ->
  Click.mod_cli module = Some cli ->
  Click.cmd_commands cli = Some commands ->
  exists found,
    retrieve package_name = Ok found /\
    map SamCliCommandSchema.description found =
    map describe (Click.values commands) /\
    map SamCliCommandSchema.parameters found =
    map get_params_from_command (Click.values commands).
Proof.
  intros Hm Hc Hg. eexists.
  split; [exact (retrieve_group _ _ _ module cli commands Hm Hc Hg)|].
  rewrite !map_map. split; reflexivity.
Qed.

End WithRegistry.


Lemma extend_all_concat_witness :
  exists commands,
    extend_all Example.to_key Example.import_module Example.packages []
    = Ok commands /\
    map SamCliCommandSchema.name commands = ["foo"; "grp_a"; "grp_b"].
Proof.
  eexists. split.
  - eapply (extend_all_concat Example.to_key Example.import_module
              Example.packages).
    econstructor; [reflexivity|]. econstructor; [reflexivity|]. constructor.
  - reflexivity.
Defined.

Lemma generate_schema_document_witness :
  exists schema,
    generate_schema Example.to_key Example.import_module Example.packages
    = Ok schema /\
    dict_keys schema =
    ["$schema"; "title"; "type"; "properties"; "required";
     "additionalProperties"; "patternProperties"].
Proof.
  eexists. split.
  - eapply (generate_schema_document Example.to_key Example.import_module
              Example.packages).
    reflexivity.
  - reflexivity.
Defined.

Lemma environment_properties_entries_witness :
  exists schema props,
    generate_schema Example.to_key Example.import_module Example.packages
    = Ok schema /\
    at_path environment_path (VDict schema) = Some (VDict props) /\
    dict_keys props = ["foo"; "grp_a"; "grp_b"].
Proof.
  destruct (environment_properties_entries
              Example.to_key Example.import_module Example.packages
              _ eq_refl) as [schema [props [E [P [_ N]]]]].
  exists schema, props. split; [exact E|]. split; [exact P|].
  rewrite N; [reflexivity|].
  repeat constructor; simpl; intuition discriminate.
Defined.

Lemma generate_schema_parameter_lookup_witness :
  exists schema,
    generate_schema Example.to_key Example.import_module Example.packages
    = Ok schema /\
    at_path
      ["patternProperties"; "^.+$"; "properties"; "foo"; "properties";
       "parameters"; "properties"; "bar"]
      (VDict schema) =
    Some (VDict [("title", VStr "bar"); ("type", VStr "string");
                 ("description", VStr "Bar option");
                 ("default", VStr "baz")]).
Proof.
  refine (generate_schema_parameter_lookup
            Example.to_key Example.import_module Example.packages
            _ [] _ _ [] [] (format_param Example.bar)
            eq_refl eq_refl _ eq_refl eq_refl _).
  - intros other [<-|[<-|[]]]; discriminate.
  - intros other [].
Defined.

Lemma retrieve_group_entries_witness :
  exists found,
    retrieve_command_structure Example.to_key Example.import_module
      "pkg.commands.grp" = Ok found /\
    map SamCliCommandSchema.description found = ["First"; "Second"].
Proof.
  destruct (retrieve_group_entries
              Example.to_key Example.import_module "pkg.commands.grp"
              {| Click.mod_name := "pkg.commands.grp";
                 Click.mod_cli := Some Example.grp |}
              Example.grp _ eq_refl eq_refl eq_refl)
    as [found [E [D _]]].
  exists found. split; [exact E | exact D].
Defined.

End Pipeline.

(* ================================================================= *)
(** ** Reordering the registry *)

Module Reordering.
Import PyVal Schema Spec DictFacts Assembly Pipeline.

Section Lookup.
Variable A : Type.
Variable key : A -> string.
Variable val : A -> value.

Lemma dict_get_put_present (xs : list A) (x : A) :
  NoDup (map key xs) -> In x xs ->
  dict_get (key x) (put key val xs []) = Some (val x).
Proof.
  intros Hn Hin. apply in_split in Hin as [earlier [later E]].
  apply (dict_get_put_last A key val xs earlier later x [] E).
  intros y Hy Heq. subst xs. rewrite map_app in Hn. simpl in Hn.
  apply NoDup_remove_2 in Hn. apply Hn, in_or_app. right.
  rewrite <- Heq. now apply in_map.
Qed.

Lemma dict_get_put_absent (xs : list A) (n : string) :
  ~ In n (map key xs) -> dict_get n (put key val xs []) = None.
Proof.
  intros H. rewrite dict_get_put, find_skip; [reflexivity|].
  intros y Hy. apply in_rev in Hy. apply String.eqb_neq.
  intros E. apply H. rewrite <- E. now apply in_map.
Qed.

Lemma dict_get_put_permutation (xs ys : list A) (n : string) :
  Permutation xs ys -> NoDup (map key xs) ->
  dict_get n (put key val xs []) = dict_get n (put key val ys []).
Proof.
  intros HP Hn.
  assert (Hn' : NoDup (map key ys)).
  { apply (Permutation_NoDup (Permutation_map key HP) Hn). }
  destruct (in_dec string_dec n (map key xs)) as [Hin|Hout].
  - apply in_map_iff in Hin as [x [E Hx]]. subst n.
    rewrite dict_get_put_present by assumption.
    rewrite dict_get_put_present; [reflexivity | exact Hn'|].
    now apply (Permutation_in x HP).
  - rewrite dict_get_put_absent by exact Hout.
    rewrite dict_get_put_absent; [reflexivity|].
    intros Hin. apply Hout.
    apply (Permutation_in n (Permutation_sym (Permutation_map key HP)) Hin).
Qed.

End Lookup.

Section WithRegistry.
Variable to_key : list string -> string.
Variable import_module : string -> option Click.PyModule.

Local Abbreviation retrieve :=
  (retrieve_command_structure to_key import_module).

Local Abbreviation found_for :=
  (fun package_name =>
     match retrieve package_name with
     | inr found => found
     | inl _ => []
     end).

Lemma extend_all_flat_map (packages : list string)
  (commands all : list SamCliCommandSchema.t) :
  extend_all to_key import_module packages commands = Ok all ->
  all = (commands ++ flat_map found_for packages)%list.
Proof.
  revert commands. induction packages as [|p packages IH]; intros commands.
  - simpl. intros H. inversion H. now rewrite app_nil_r.
  - simpl. destruct (retrieve p) as [e|found]; simpl; [discriminate|].
    intros H. apply IH in H. now rewrite H, <- app_assoc.
Qed.

Lemma extend_all_permutation (packages packages' : list string)
  (commands all : list SamCliCommandSchema.t) :
  Permutation packages packages' ->
  extend_all to_key import_module packages commands = Ok all ->
  exists all', extend_all to_key import_module packages' commands = Ok all'.
Proof.
  intros HP. revert commands all.
  assert (T : forall ps cs,
             (forall p, In p ps -> exists found, retrieve p = Ok found) ->
             exists all', extend_all to_key import_module ps cs = Ok all').
  { induction ps as [|p ps IH]; intros cs H; simpl; [eauto|].
    destruct (H p) as [found E]; [simpl; auto|]. rewrite E. simpl.
    apply IH. intros q Hq. apply H. simpl; auto. }
  assert (R : forall ps cs all,
             extend_all to_key import_module ps cs = Ok all ->
             forall p, In p ps -> exists found, retrieve p = Ok found).
  { induction ps as [|p ps IH]; intros cs all H q Hq; [destruct Hq|].
    simpl in H. destruct (retrieve p) as [e|found] eqn:E; [discriminate|].
    simpl in H. destruct Hq as [<-|Hq]; [eauto|]. now apply (IH _ _ H). }
  intros commands all H. apply T. intros p Hp.
  apply (R _ _ _ H). now apply (Permutation_in p (Permutation_sym HP)).
Qed.

(** X17. Registering the same packages in another order changes only the
    order of the document's entries: when the command names are pairwise
    distinct, generation succeeds for the reordered registry as well,
    and both documents hold the same value under every command name of
    the environment wrapper's properties. *)
Theorem generate_schema_order_irrelevant (packages packages' : list string)
  (commands : list SamCliCommandSchema.t) :
  Permutation packages packages' ->
  extend_all to_key import_module packages [] = Ok commands ->
  NoDup (map SamCliCommandSchema.name commands) ->
  exists schema schema',
    generate_schema to_key import_module packages = Ok schema /\
    generate_schema to_key import_module packages' = Ok schema' /\
    forall n,
      at_path (environment_path ++ [n])%list (VDict schema) =
      at_path (environment_path ++ [n])%list (VDict schema').
Proof.
  intros HP H Hn.
  destruct (extend_all_permutation _ _ _ _ HP H) as [commands' H'].
  eexists. eexists.
  split; [exact (generate_schema_document _ _ _ commands H)|].
  split; [exact (generate_schema_document _ _ _ commands' H')|].
  intros n. rewrite !at_path_app.
  cbn [environment_path at_path dict_get String.eqb Ascii.eqb Bool.eqb
       SchemaKeys.ENVIRONMENT_REGEX].
  rewrite (dict_get_put_permutation _ SamCliCommandSchema.name
             SamCliCommandSchema.command_entry commands commands' n);
    [reflexivity| |exact Hn].
  apply extend_all_flat_map in H. apply extend_all_flat_map in H'.
  simpl in H, H'. subst commands commands'.
  now apply Permutation_flat_map.
Qed.

End WithRegistry.

Lemma generate_schema_order_irrelevant_witness :
  exists schema schema',
    generate_schema Example.to_key Example.import_module
      ["pkg.commands.foo"; "pkg.commands.grp"] = Ok schema /\
    generate_schema Example.to_key Example.import_module
      ["pkg.commands.grp"; "pkg.commands.foo"] = Ok schema' /\
    forall n,
      at_path (environment_path ++ [n])%list (VDict schema) =
      at_path (environment_path ++ [n])%list (VDict schema').
Proof.
  eapply (generate_schema_order_irrelevant
            Example.to_key Example.import_module
            ["pkg.commands.foo"; "pkg.commands.grp"]
            ["pkg.commands.grp"; "pkg.commands.foo"]).
  - apply perm_swap.
  - reflexivity.
  - repeat constructor; simpl; intuition discriminate.
Defined.

End Reordering.
